(** * AYUSH health analytics: the scoring engine of [utils/ayush-algorithms]

    A shallow embedding of the four exported functions of the analytics
    module ([calculateDoshaProfile], [predictDiseases],
    [calculateLifestyleRisk], [getDominantDosha]) together with the
    properties stated about them, followed by the rest of the module
    ([getDoshaDescription]), the helpers of the two dashboards that consume
    its results, the analysis run by the application, and the pure parts of
    the server (bearer-token extraction, [verifyUser], storage keys,
    [generateDoctorRecommendations]).

    Conventions of the embedding.
    - A JavaScript [number] is modelled by [JS.number]: an exact rational,
      one of the two infinities, or NaN.  Arithmetic on finite values is
      exact; the two zeros are identified and every division by zero that
      the module performs has a non-negative zero as divisor (a sum of
      non-negative points, or a square).  Lemma [round_never_at_tie] shows
      that the only rounding the module performs on valid input is never
      closer than 1/26 to a tie, far more than binary64 error.
      The statements about computed numbers use only what exact and
      binary64 arithmetic share: signs, order, bounds, monotonicity, and
      equalities between expressions that perform the same operations in
      the same order; none relies on addition being associative.
    - A field typed in TypeScript as a union of string literals holds a
      string at run time and is modelled as [string]; the declared sets are
      the [*_domain] lists.
    - [Array.prototype.sort] is stable; with a comparator it is modelled
      by a stable insertion sort driven by the sign of the comparator. *)

From Stdlib Require Import ZArith QArith Qround String List Bool Lia Lqa.
From Stdlib Require Import Sorted Permutation Ascii.
Import ListNotations.

Local Open Scope Z_scope.

(* ------------------------------------------------------------------ *)
(** ** JavaScript numbers *)

Module JS.

Inductive number : Type :=
| Fin (q : Q)
| PInf
| NInf
| NaN.

Definition of_Z (z : Z) : number := Fin (inject_Z z).

Definition neg (a : number) : number :=
  match a with
  | Fin q => Fin (- q)
  | PInf => NInf
  | NInf => PInf
  | NaN => NaN
  end.

Definition add (a b : number) : number :=
  match a, b with
  | NaN, _ | _, NaN => NaN
  | PInf, NInf | NInf, PInf => NaN
  | PInf, _ | _, PInf => PInf
  | NInf, _ | _, NInf => NInf
  | Fin x, Fin y => Fin (x + y)
  end.

Definition sub (a b : number) : number := add a (neg b).

(** Sign of a finite value. *)
Definition sgn (q : Q) : comparison := (0 ?= q)%Q.

Definition signed_inf (c : comparison) : number :=
  match c with
  | Lt => PInf
  | Gt => NInf
  | Eq => NaN
  end.

Definition mul (a b : number) : number :=
  match a, b with
  | NaN, _ | _, NaN => NaN
  | Fin x, Fin y => Fin (x * y)
  | PInf, PInf | NInf, NInf => PInf
  | PInf, NInf | NInf, PInf => NInf
  | PInf, Fin y | Fin y, PInf => signed_inf (sgn y)
  | NInf, Fin y | Fin y, NInf => neg (signed_inf (sgn y))
  end.

(** Division; a zero divisor is a non-negative zero. *)
Definition div (a b : number) : number :=
  match a, b with
  | NaN, _ | _, NaN => NaN
  | Fin x, Fin y =>
      if Qeq_bool y 0 then signed_inf (sgn x) else Fin (x / y)
  | Fin _, (PInf | NInf) => Fin 0
  | (PInf | NInf), (PInf | NInf) => NaN
  | PInf, Fin y => if Qle_bool 0 y then PInf else NInf
  | NInf, Fin y => if Qle_bool 0 y then NInf else PInf
  end.

(** [Math.pow] at a natural exponent. *)
Fixpoint pow (a : number) (n : nat) : number :=
  match n with
  | O => Fin 1
  | S O => a
  | S m => mul a (pow a m)
  end.

Definition Qlt_bool (x y : Q) : bool := negb (Qle_bool y x).

(** [a < b]; false as soon as one side is NaN. *)
Definition lt (a b : number) : bool :=
  match a, b with
  | NaN, _ | _, NaN => false
  | Fin x, Fin y => Qlt_bool x y
  | NInf, (Fin _ | PInf) => true
  | Fin _, PInf => true
  | _, _ => false
  end.

Definition gt (a b : number) : bool := lt b a.

(** [a === b] on numbers. *)
Definition strict_eq (a b : number) : bool :=
  match a, b with
  | Fin x, Fin y => Qeq_bool x y
  | PInf, PInf | NInf, NInf => true
  | _, _ => false
  end.

(** [Math.max(a, b)] and [Math.min(a, b)]: NaN if an argument is NaN. *)
Definition max (a b : number) : number :=
  match a, b with
  | NaN, _ | _, NaN => NaN
  | _, _ => if lt a b then b else a
  end.

Definition min (a b : number) : number :=
  match a, b with
  | NaN, _ | _, NaN => NaN
  | _, _ => if lt b a then b else a
  end.

(** [Math.round]: the nearest integer, ties towards +Infinity. *)
Definition round (a : number) : number :=
  match a with
  | Fin q => Fin (inject_Z (Qfloor (q + (1 # 2))))
  | _ => a
  end.

Definition is_NaN (a : number) : bool :=
  match a with NaN => true | _ => false end.

(** Equality of values that are not NaN (rationals up to [Qeq]). *)
Definition eqv (a b : number) : Prop :=
  match a, b with
  | Fin x, Fin y => (x == y)%Q
  | PInf, PInf | NInf, NInf => True
  | _, _ => False
  end.

(** The order on values that are not NaN: [a <= b]. *)
Definition le (a b : number) : Prop :=
  match a, b with
  | NaN, _ | _, NaN => False
  | Fin x, Fin y => (x <= y)%Q
  | NInf, _ => True
  | _, PInf => True
  | _, _ => False
  end.

End JS.

Abbreviation number := JS.number.

Local Open Scope string_scope.

(* ------------------------------------------------------------------ *)
(** ** Data model *)

Record DoshaScores : Type := mkDoshaScores {
  vata : number;
  pitta : number;
  kapha : number
}.

Record HealthParameters : Type := mkHealthParameters {
  age : number;
  weight : number;
  height : number;
  bodyTemperature : string;
  digestion : string;
  sleepPattern : string;
  energyLevel : string;
  skinType : string;
  stressLevel : string;
  exerciseFrequency : string
}.

(** [LifestyleFactors] as the interface declares it, plus the property
    [exerciseFrequency] that [predictDiseases] and [calculateLifestyleRisk]
    read from the lifestyle object although the interface does not declare
    it: [None] is JavaScript's [undefined] (the property is absent). *)
Record LifestyleFactors : Type := mkLifestyleFactors {
  diet : string;
  mealTiming : string;
  waterIntake : string;
  sleepHours : number;
  exerciseMinutes : number;
  stressManagement : string;
  screenTime : number;
  lifestyle_exerciseFrequency : option string
}.

Record DiseasePrediction : Type := mkDiseasePrediction {
  disease : string;
  probability : number;
  severity : string;
  ayushSystem : string;
  recommendations : list string
}.

Record RiskFactor : Type := mkRiskFactor {
  factor : string;
  impact : string;
  score : number
}.

Record LifestyleRisk : Type := mkLifestyleRisk {
  overallRisk : number;
  riskFactors : list RiskFactor
}.

(** The declared sets of the enumerated fields. *)
Definition bodyTemperature_domain := ["cold"; "neutral"; "warm"].
Definition digestion_domain := ["irregular"; "strong"; "slow"].
Definition sleepPattern_domain := ["light"; "moderate"; "deep"].
Definition energyLevel_domain := ["variable"; "high"; "steady"].
Definition skinType_domain := ["dry"; "oily"; "normal"].
Definition stressLevel_domain := ["high"; "moderate"; "low"].
Definition exerciseFrequency_domain := ["daily"; "weekly"; "rarely"].
Definition diet_domain := ["vegetarian"; "non-vegetarian"; "vegan"].
Definition mealTiming_domain := ["regular"; "irregular"].
Definition waterIntake_domain := ["low"; "moderate"; "high"].
Definition stressManagement_domain := ["yoga"; "meditation"; "none"; "other"].

Definition mem (s : string) (dom : list string) : bool :=
  existsb (String.eqb s) dom.

Definition positive (a : number) : bool := JS.lt (JS.of_Z 0) a.

(** The seven enumerated fields of a [HealthParameters] lie in their sets. *)
Definition enums_in_domain (p : HealthParameters) : bool :=
  mem p.(bodyTemperature) bodyTemperature_domain
  && mem p.(digestion) digestion_domain
  && mem p.(sleepPattern) sleepPattern_domain
  && mem p.(energyLevel) energyLevel_domain
  && mem p.(skinType) skinType_domain
  && mem p.(stressLevel) stressLevel_domain
  && mem p.(exerciseFrequency) exerciseFrequency_domain.

(** A valid [HealthParameters]: all ten fields populated from their
    domains, the three numeric ones positive. *)
Definition valid_params (p : HealthParameters) : bool :=
  enums_in_domain p
  && positive p.(age) && positive p.(weight) && positive p.(height).

(* ------------------------------------------------------------------ *)
(** ** calculateDoshaProfile *)

(** The three accumulators [vata], [pitta], [kapha] after the eighteen
    conditional increments, in source order. *)
Definition accumulators (params : HealthParameters) : Z * Z * Z :=
  let vata := 0 in
  let pitta := 0 in
  let kapha := 0 in
  (* Body temperature influence *)
  let vata := if params.(bodyTemperature) =? "cold" then vata + 2 else vata in
  let pitta := if params.(bodyTemperature) =? "warm" then pitta + 2 else pitta in
  let kapha := if params.(bodyTemperature) =? "neutral" then kapha + 1 else kapha in
  (* Digestion patterns *)
  let vata := if params.(digestion) =? "irregular" then vata + 3 else vata in
  let pitta := if params.(digestion) =? "strong" then pitta + 3 else pitta in
  let kapha := if params.(digestion) =? "slow" then kapha + 3 else kapha in
  (* Sleep patterns *)
  let vata := if params.(sleepPattern) =? "light" then vata + 2 else vata in
  let pitta := if params.(sleepPattern) =? "moderate" then pitta + 2 else pitta in
  let kapha := if params.(sleepPattern) =? "deep" then kapha + 2 else kapha in
  (* Energy levels *)
  let vata := if params.(energyLevel) =? "variable" then vata + 2 else vata in
  let pitta := if params.(energyLevel) =? "high" then pitta + 2 else pitta in
  let kapha := if params.(energyLevel) =? "steady" then kapha + 2 else kapha in
  (* Skin type *)
  let vata := if params.(skinType) =? "dry" then vata + 2 else vata in
  let pitta := if params.(skinType) =? "oily" then pitta + 2 else pitta in
  let kapha := if params.(skinType) =? "normal" then kapha + 1 else kapha in
  (* Stress response *)
  let vata := if params.(stressLevel) =? "high" then vata + 2 else vata in
  let pitta := if params.(stressLevel) =? "moderate" then pitta + 1 else pitta in
  let kapha := if params.(stressLevel) =? "low" then kapha + 1 else kapha in
  (vata, pitta, kapha).

Definition total_points (params : HealthParameters) : Z :=
  let '(vata, pitta, kapha) := accumulators params in vata + pitta + kapha.

(** [Math.round((x / total) * 100)]. *)
Definition percentage (x total : Z) : number :=
  JS.round (JS.mul (JS.div (JS.of_Z x) (JS.of_Z total)) (JS.of_Z 100)).

Definition calculateDoshaProfile (params : HealthParameters) : DoshaScores :=
  let '(vata, pitta, kapha) := accumulators params in
  (* Normalize scores to percentages *)
  let total := vata + pitta + kapha in
  {| vata := percentage vata total;
     pitta := percentage pitta total;
     kapha := percentage kapha total |}.

(** All the valid combinations of the six scored enumerated fields (the
    other four fields are fixed: the function does not read them). *)
Definition all_scored_combinations : list HealthParameters :=
  flat_map (fun bt => flat_map (fun dg => flat_map (fun sp =>
  flat_map (fun en => flat_map (fun sk => map (fun st =>
    mkHealthParameters (JS.of_Z 30) (JS.of_Z 70) (JS.of_Z 170)
      bt dg sp en sk st "daily")
  stressLevel_domain) skinType_domain) energyLevel_domain)
  sleepPattern_domain) digestion_domain) bodyTemperature_domain.

Definition scores_sum (s : DoshaScores) : number :=
  JS.add (JS.add s.(vata) s.(pitta)) s.(kapha).

(* ------------------------------------------------------------------ *)
(** ** Array.prototype.sort with a comparator *)

Section Sort.
Context {A : Type}.
Variable compareFn : A -> A -> number.

(** [compareFn a b > 0]: [a] is placed after [b].  A NaN result counts
    as zero. *)
Definition placed_after (a b : A) : bool :=
  JS.gt (compareFn a b) (JS.of_Z 0).

Fixpoint insert (a : A) (l : list A) : list A :=
  match l with
  | [] => [a]
  | b :: l' => if placed_after a b then b :: insert a l' else a :: l
  end.

Definition sort (l : list A) : list A := fold_right insert [] l.

End Sort.

(** Statement combinators for the imperative bodies: a guarded block and
    [Array.prototype.push]. *)
Definition if_then {S : Type} (c : bool) (body : S -> S) (s : S) : S :=
  if c then body s else s.

Definition push {A : Type} (x : A) (l : list A) : list A := l ++ [x].

Definition streq (a b : string) : bool := String.eqb a b.

(** [x === 'lit'] for a property that may be undefined. *)
Definition opt_streq (a : option string) (b : string) : bool :=
  match a with
  | Some s => String.eqb s b
  | None => false
  end.

(* ------------------------------------------------------------------ *)
(** ** predictDiseases *)

Definition bmi_of (params : HealthParameters) : number :=
  JS.div params.(weight) (JS.pow (JS.div params.(height) (JS.of_Z 100)) 2).

(** The findings in the order in which the rules push them. *)
Definition predictions_of (doshaScores : DoshaScores)
    (lifestyle : LifestyleFactors) (params : HealthParameters)
    : list DiseasePrediction :=
  let predictions : list DiseasePrediction := [] in
  let bmi := bmi_of params in
  (* Vata-related conditions *)
  let predictions :=
    if_then (JS.gt doshaScores.(vata) (JS.of_Z 40)) (fun predictions =>
      let predictions :=
        if_then (streq params.(stressLevel) "high"
                 && JS.lt lifestyle.(sleepHours) (JS.of_Z 6))
          (push {|
            disease := "Anxiety & Sleep Disorders";
            probability :=
              JS.add (JS.Fin 0.65) (JS.div doshaScores.(vata) (JS.of_Z 200));
            severity :=
              if JS.gt doshaScores.(vata) (JS.of_Z 50) then "high" else "moderate";
            ayushSystem := "Ayurveda";
            recommendations := [
              "Practice Vata-pacifying yoga (gentle, grounding poses)";
              "Follow regular meal times with warm, cooked foods";
              "Abhyanga (oil massage) with sesame oil";
              "Meditation and pranayama for stress reduction";
              "Ensure 7-8 hours of sleep" ]
          |}) predictions in
      let predictions :=
        if_then (streq params.(digestion) "irregular")
          (push {|
            disease := "Digestive Irregularity (Vishamagni)";
            probability :=
              JS.add (JS.Fin 0.55) (JS.div doshaScores.(vata) (JS.of_Z 250));
            severity := "moderate";
            ayushSystem := "Ayurveda";
            recommendations := [
              "Consume ginger tea before meals";
              "Avoid cold and raw foods";
              "Practice mindful eating";
              "Take Triphala supplement (consult practitioner)" ]
          |}) predictions in
      predictions) predictions in
  (* Pitta-related conditions *)
  let predictions :=
    if_then (JS.gt doshaScores.(pitta) (JS.of_Z 40)) (fun predictions =>
      let predictions :=
        if_then (streq params.(stressLevel) "high"
                 && streq lifestyle.(mealTiming) "irregular")
          (push {|
            disease := "Hyperacidity & Inflammatory Conditions";
            probability :=
              JS.add (JS.Fin 0.60) (JS.div doshaScores.(pitta) (JS.of_Z 200));
            severity :=
              if JS.gt doshaScores.(pitta) (JS.of_Z 50) then "high" else "moderate";
            ayushSystem := "Ayurveda";
            recommendations := [
              "Avoid spicy, fried, and acidic foods";
              "Practice cooling pranayama (Shitali, Sitkari)";
              "Consume cooling foods (cucumber, coconut, coriander)";
              "Avoid excessive sun exposure";
              "Practice stress management techniques" ]
          |}) predictions in
      let predictions :=
        if_then (streq params.(bodyTemperature) "warm")
          (push {|
            disease := "Skin Inflammation & Rashes";
            probability :=
              JS.add (JS.Fin 0.45) (JS.div doshaScores.(pitta) (JS.of_Z 250));
            severity := "moderate";
            ayushSystem := "Ayurveda";
            recommendations := [
              "Apply cooling herbs like neem and aloe vera";
              "Avoid hot and spicy foods";
              "Practice yoga in cooler hours";
              "Stay hydrated with room temperature water" ]
          |}) predictions in
      predictions) predictions in
  (* Kapha-related conditions *)
  let predictions :=
    if_then (JS.gt doshaScores.(kapha) (JS.of_Z 40)) (fun predictions =>
      let predictions :=
        if_then (JS.gt bmi (JS.of_Z 25)
                 && opt_streq lifestyle.(lifestyle_exerciseFrequency) "rarely")
          (push {|
            disease := "Metabolic Syndrome Risk";
            probability :=
              JS.add
                (JS.add (JS.Fin 0.55) (JS.div doshaScores.(kapha) (JS.of_Z 200)))
                (JS.div (JS.sub bmi (JS.of_Z 25)) (JS.of_Z 50));
            severity := if JS.gt bmi (JS.of_Z 30) then "high" else "moderate";
            ayushSystem := "Ayurveda & Yoga";
            recommendations := [
              "Daily exercise (minimum 30 minutes)";
              "Avoid heavy, oily, and sweet foods";
              "Practice vigorous yoga styles (Surya Namaskar)";
              "Consume warm water with honey and lemon";
              "Include more vegetables and reduce dairy" ]
          |}) predictions in
      let predictions :=
        if_then (streq params.(digestion) "slow"
                 && streq lifestyle.(waterIntake) "low")
          (push {|
            disease := "Sluggish Digestion & Water Retention";
            probability :=
              JS.add (JS.Fin 0.50) (JS.div doshaScores.(kapha) (JS.of_Z 250));
            severity := "moderate";
            ayushSystem := "Ayurveda & Naturopathy";
            recommendations := [
              "Increase water intake (warm water preferred)";
              "Consume light, warm meals";
              "Practice Kapalabhati pranayama";
              "Add ginger, black pepper to diet";
              "Avoid sleeping during day" ]
          |}) predictions in
      predictions) predictions in
  (* Lifestyle-based predictions *)
  let predictions :=
    if_then (JS.gt lifestyle.(screenTime) (JS.of_Z 8)
             && streq params.(stressLevel) "high")
      (push {|
        disease := "Digital Eye Strain & Mental Fatigue";
        probability := JS.Fin 0.70;
        severity := "moderate";
        ayushSystem := "Yoga & Naturopathy";
        recommendations := [
          "Practice Trataka (candle gazing) for eye health";
          "Follow 20-20-20 rule (every 20 min, look 20 feet away for 20 sec)";
          "Eye exercises and palming";
          "Reduce screen time before bed";
          "Use rose water eye drops (natural)" ]
      |}) predictions in
  let predictions :=
    if_then (JS.lt lifestyle.(sleepHours) (JS.of_Z 6))
      (push {|
        disease := "Sleep Deprivation Syndrome";
        probability := JS.Fin 0.75;
        severity :=
          if JS.lt lifestyle.(sleepHours) (JS.of_Z 5) then "high" else "moderate";
        ayushSystem := "Ayurveda & Yoga";
        recommendations := [
          "Establish consistent sleep schedule";
          "Practice Yoga Nidra before bed";
          "Avoid caffeine after 3 PM";
          "Create dark, cool sleeping environment";
          "Massage feet with warm oil before sleep" ]
      |}) predictions in
  let predictions :=
    if_then (streq lifestyle.(stressManagement) "none"
             && streq params.(stressLevel) "high")
      (push {|
        disease := "Chronic Stress & Burnout Risk";
        probability := JS.Fin 0.68;
        severity := "high";
        ayushSystem := "Yoga & Ayurveda";
        recommendations := [
          "Start daily meditation practice (10-15 minutes)";
          "Practice pranayama (Anulom Vilom, Bhramari)";
          "Consider Ashwagandha supplementation (consult practitioner)";
          "Regular yoga practice";
          "Maintain work-life balance" ]
      |}) predictions in
  (* Homeopathic considerations for recurring issues *)
  let predictions :=
    if_then (streq params.(energyLevel) "variable"
             && JS.gt doshaScores.(vata) (JS.of_Z 35))
      (push {|
        disease := "Constitutional Weakness";
        probability := JS.Fin 0.50;
        severity := "low";
        ayushSystem := "Homeopathy & Ayurveda";
        recommendations := [
          "Constitutional homeopathic remedy (consult homeopath)";
          "Regular meal times";
          "Adequate rest and recovery";
          "Avoid over-exertion";
          "Consider Chyawanprash for immunity" ]
      |}) predictions in
  predictions.

Definition by_probability_desc (a b : DiseasePrediction) : number :=
  JS.sub b.(probability) a.(probability).

Definition predictDiseases (doshaScores : DoshaScores)
    (lifestyle : LifestyleFactors) (params : HealthParameters)
    : list DiseasePrediction :=
  sort by_probability_desc (predictions_of doshaScores lifestyle params).

(* ------------------------------------------------------------------ *)
(** ** calculateLifestyleRisk *)

(** The six contribution terms, the [const]s of the source. *)
Definition sleepRisk (lifestyle : LifestyleFactors) : number :=
  JS.max (JS.of_Z 0)
    (JS.mul (JS.sub (JS.of_Z 7) lifestyle.(sleepHours)) (JS.of_Z 10)).

Definition exerciseRisk (lifestyle : LifestyleFactors) : number :=
  if opt_streq lifestyle.(lifestyle_exerciseFrequency) "daily" then JS.of_Z 0
  else if opt_streq lifestyle.(lifestyle_exerciseFrequency) "weekly"
       then JS.of_Z 15 else JS.of_Z 30.

Definition stressRisk (lifestyle : LifestyleFactors)
    (params : HealthParameters) : number :=
  if streq lifestyle.(stressManagement) "none"
     && streq params.(stressLevel) "high" then JS.of_Z 25
  else if streq lifestyle.(stressManagement) "none" then JS.of_Z 15
       else JS.of_Z 0.

Definition screenRisk (lifestyle : LifestyleFactors) : number :=
  JS.min (JS.of_Z 30)
    (JS.max (JS.of_Z 0)
       (JS.mul (JS.sub lifestyle.(screenTime) (JS.of_Z 8)) (JS.of_Z 3))).

Definition waterRisk (lifestyle : LifestyleFactors) : number :=
  if streq lifestyle.(waterIntake) "low" then JS.of_Z 15 else JS.of_Z 0.

Definition mealRisk (lifestyle : LifestyleFactors) : number :=
  if streq lifestyle.(mealTiming) "irregular" then JS.of_Z 20 else JS.of_Z 0.

(** The state of the body: the [riskFactors] array and [totalRisk]. *)
Definition risk_state : Type := list RiskFactor * number.

(** One block [{ riskFactors.push(f); totalRisk += f.score }]. *)
Definition record_risk (f : RiskFactor) (st : risk_state) : risk_state :=
  let '(riskFactors, totalRisk) := st in
  (push f riskFactors, JS.add totalRisk f.(score)).

Definition positive_risk (r : number) : bool := JS.gt r (JS.of_Z 0).

Definition risk_state_of (lifestyle : LifestyleFactors)
    (params : HealthParameters) : risk_state :=
  let st : risk_state := ([], JS.of_Z 0) in
  (* Sleep risk *)
  let st :=
    if_then (positive_risk (sleepRisk lifestyle))
      (record_risk {|
        factor := "Inadequate Sleep";
        impact := if JS.gt (sleepRisk lifestyle) (JS.of_Z 20)
                  then "High impact on health" else "Moderate impact";
        score := sleepRisk lifestyle |}) st in
  (* Exercise risk *)
  let st :=
    if_then (positive_risk (exerciseRisk lifestyle))
      (record_risk {|
        factor := "Low Physical Activity";
        impact := if JS.gt (exerciseRisk lifestyle) (JS.of_Z 20)
                  then "High impact on metabolism" else "Moderate impact";
        score := exerciseRisk lifestyle |}) st in
  (* Stress management risk *)
  let st :=
    if_then (positive_risk (stressRisk lifestyle params))
      (record_risk {|
        factor := "Poor Stress Management";
        impact := "High impact on mental health";
        score := stressRisk lifestyle params |}) st in
  (* Screen time risk *)
  let st :=
    if_then (positive_risk (screenRisk lifestyle))
      (record_risk {|
        factor := "Excessive Screen Time";
        impact := "Impact on eyes and posture";
        score := screenRisk lifestyle |}) st in
  (* Water intake risk *)
  let st :=
    if_then (positive_risk (waterRisk lifestyle))
      (record_risk {|
        factor := "Low Water Intake";
        impact := "Impact on digestion and detoxification";
        score := waterRisk lifestyle |}) st in
  (* Meal timing risk *)
  let st :=
    if_then (positive_risk (mealRisk lifestyle))
      (record_risk {|
        factor := "Irregular Meal Times";
        impact := "Impact on digestion and metabolism";
        score := mealRisk lifestyle |}) st in
  st.

Definition by_score_desc (a b : RiskFactor) : number :=
  JS.sub b.(score) a.(score).

Definition calculateLifestyleRisk (lifestyle : LifestyleFactors)
    (params : HealthParameters) : LifestyleRisk :=
  let '(riskFactors, totalRisk) := risk_state_of lifestyle params in
  {| overallRisk := JS.min (JS.of_Z 100) totalRisk;
     riskFactors := sort by_score_desc riskFactors |}.

(* ------------------------------------------------------------------ *)
(** ** getDominantDosha *)

(** [Math.max(a, b, c)]. *)
Definition max3 (a b c : number) : number := JS.max (JS.max a b) c.

Definition getDominantDosha (scores : DoshaScores) : string :=
  let max := max3 scores.(vata) scores.(pitta) scores.(kapha) in
  if JS.strict_eq scores.(vata) max then "Vata"
  else if JS.strict_eq scores.(pitta) max then "Pitta"
  else "Kapha".

(* ------------------------------------------------------------------ *)
(** ** The weight table of the specification (section 4.1) *)

(** The three accumulators as the specification names them. *)
Inductive accumulator : Type := accA | accB | accC.

(** The table, row by row: attribute, then value -> (accumulator, points). *)
Definition weight_table : list (string * list (string * (accumulator * Z))) :=
  [ ("bodyTemperature",
      [("cold", (accA, 2)); ("neutral", (accC, 1)); ("warm", (accB, 2))]);
    ("digestion",
      [("irregular", (accA, 3)); ("strong", (accB, 3)); ("slow", (accC, 3))]);
    ("sleepPattern",
      [("light", (accA, 2)); ("moderate", (accB, 2)); ("deep", (accC, 2))]);
    ("energyLevel",
      [("variable", (accA, 2)); ("high", (accB, 2)); ("steady", (accC, 2))]);
    ("skinType",
      [("dry", (accA, 2)); ("oily", (accB, 2)); ("normal", (accC, 1))]);
    ("stressLevel",
      [("high", (accA, 2)); ("moderate", (accB, 1)); ("low", (accC, 1))]) ].

Fixpoint assoc {V : Type} (k : string) (l : list (string * V)) : option V :=
  match l with
  | [] => None
  | (k', v) :: l' => if String.eqb k k' then Some v else assoc k l'
  end.

Definition table_entry (attribute value : string) : option (accumulator * Z) :=
  match assoc attribute weight_table with
  | Some row => assoc value row
  | None => None
  end.

(** The attributes that have a row in the table, with their values. *)
Definition scored_attributes (p : HealthParameters) : list (string * string) :=
  [ ("bodyTemperature", p.(bodyTemperature));
    ("digestion", p.(digestion));
    ("sleepPattern", p.(sleepPattern));
    ("energyLevel", p.(energyLevel));
    ("skinType", p.(skinType));
    ("stressLevel", p.(stressLevel)) ].

Definition award (e : option (accumulator * Z)) : Z * Z * Z :=
  match e with
  | Some (accA, n) => (n, 0, 0)
  | Some (accB, n) => (0, n, 0)
  | Some (accC, n) => (0, 0, n)
  | None => (0, 0, 0)
  end.

Definition plus3 (x y : Z * Z * Z) : Z * Z * Z :=
  let '(a, b, c) := x in
  let '(a', b', c') := y in (a + a', b + b', c + c').

(** The accumulators according to the table. *)
Definition table_total (p : HealthParameters) : Z * Z * Z :=
  fold_left (fun acc '(attribute, value) =>
               plus3 acc (award (table_entry attribute value)))
            (scored_attributes p) (0, 0, 0).

(** Points in the range of the table. *)
Definition table_points_ok (e : option (accumulator * Z)) : bool :=
  match e with
  | Some (_, n) => ((1 <=? n) && (n <=? 3))%Z
  | None => false
  end.

(** The integer to which [percentage x total] rounds. *)
Definition pct (x total : Z) : Z :=
  Qfloor (inject_Z x / inject_Z total * inject_Z 100 + (1 # 2)).

(** The representative of [p] among [all_scored_combinations]. *)
Definition canon (p : HealthParameters) : HealthParameters :=
  mkHealthParameters (JS.of_Z 30) (JS.of_Z 70) (JS.of_Z 170)
    p.(bodyTemperature) p.(digestion) p.(sleepPattern) p.(energyLevel)
    p.(skinType) p.(stressLevel) "daily".

(** The example input of the specification (section 8). *)
Definition example_params : HealthParameters :=
  {| age := JS.of_Z 30; weight := JS.of_Z 70; height := JS.of_Z 170;
     bodyTemperature := "cold"; digestion := "irregular";
     sleepPattern := "light"; energyLevel := "variable";
     skinType := "dry"; stressLevel := "high";
     exerciseFrequency := "rarely" |}.

(* ------------------------------------------------------------------ *)
(** ** Definitions used by the statements *)

Local Open Scope Z_scope.

(** *** calculateDoshaProfile *)

(** The decidable content of the range and sum properties. *)
Definition sum_check (p : HealthParameters) : bool :=
  let '(v, pi, k) := accumulators p in
  let t := v + pi + k in
  let a := pct v t in
  let b := pct pi t in
  let c := pct k t in
  negb (t =? 0)
  && (0 <=? a) && (a <=? 100) && (0 <=? b) && (b <=? 100)
  && (0 <=? c) && (c <=? 100)
  && (99 <=? a + b + c) && (a + b + c <=? 101).

(** An input on which independent rounding loses one point:
    accumulators 7, 4, 1 of 12, percentages 58, 33, 8. *)
Definition rounding_example : HealthParameters :=
  {| age := JS.of_Z 30; weight := JS.of_Z 70; height := JS.of_Z 170;
     bodyTemperature := "cold"; digestion := "irregular";
     sleepPattern := "light"; energyLevel := "high";
     skinType := "oily"; stressLevel := "low";
     exerciseFrequency := "daily" |}.

(** The decidable content of the agreement with the weight table. *)
Definition table_check (p : HealthParameters) : bool :=
  let '(v, pi, k) := accumulators p in
  let '(a, b, c) := table_total p in
  (v =? a) && (pi =? b) && (k =? c)
  && forallb (fun '(attribute, value) =>
                table_points_ok (table_entry attribute value))
             (scored_attributes p).

(** [p] with other values in the four fields that are not scored. *)
Definition with_unscored (p : HealthParameters)
    (a w h : number) (ef : string) : HealthParameters :=
  {| age := a; weight := w; height := h;
     bodyTemperature := p.(bodyTemperature); digestion := p.(digestion);
     sleepPattern := p.(sleepPattern); energyLevel := p.(energyLevel);
     skinType := p.(skinType); stressLevel := p.(stressLevel);
     exerciseFrequency := ef |}.

(** The reading of C4 in which the seventh enumerated attribute,
    [exerciseFrequency], is scored as well: on top of the six rows of the
    table it adds 1, 2 or 3 points to one accumulator. *)
Definition seventh_attribute_scored (p : HealthParameters) : Prop :=
  exists (acc : accumulator) (n : Z),
    1 <= n <= 3 /\
    accumulators p = plus3 (table_total p) (award (Some (acc, n))).

(** The decidable content of [round_never_at_tie]. *)
Definition no_tie (x t : Z) : bool := negb ((200 * x) mod (2 * t) =? t).

Definition tie_check (p : HealthParameters) : bool :=
  let '(v, pi, k) := accumulators p in
  let t := v + pi + k in
  (0 <? t) && (t <=? 13) && no_tie v t && no_tie pi t && no_tie k t.

(** *** Keys and ranks under a comparator [(a, b) => b.key - a.key] *)

Section ByKey.
Context {A : Type}.
Variable key : A -> number.
Variable idx : A -> nat.

Definition by_key_desc (a b : A) : number := JS.sub (key b) (key a).

Definition ordered_key (a : A) : Prop := JS.is_NaN (key a) = false.

Definition idx_lt (a b : A) : Prop := (idx a < idx b)%nat.

(** [a] stands before [b]: a strictly larger key, or the same key and an
    earlier position in the evaluation order. *)
Definition precedes (a b : A) : Prop :=
  JS.lt (key b) (key a) = true
  \/ (JS.eqv (key a) (key b) /\ idx_lt a b).

End ByKey.

(** *** predictDiseases *)

(** The diseases in the order in which their rules are evaluated. *)
Definition rule_names : list string :=
  [ "Anxiety & Sleep Disorders";
    "Digestive Irregularity (Vishamagni)";
    "Hyperacidity & Inflammatory Conditions";
    "Skin Inflammation & Rashes";
    "Metabolic Syndrome Risk";
    "Sluggish Digestion & Water Retention";
    "Digital Eye Strain & Mental Fatigue";
    "Sleep Deprivation Syndrome";
    "Chronic Stress & Burnout Risk";
    "Constitutional Weakness" ].

Fixpoint position (s : string) (l : list string) : nat :=
  match l with
  | [] => O
  | x :: l' => if String.eqb s x then O else S (position s l')
  end.

(** The rank of the rule that produces a finding. *)
Definition rule_index (d : DiseasePrediction) : nat :=
  position d.(disease) rule_names.

(** [a] is ranked before [b]: its key is at least as large, and on equal
    keys it comes from the earlier rule. *)
Definition ranked_before {A : Type} (key : A -> number) (idx : A -> nat)
    (a b : A) : Prop :=
  JS.le (key b) (key a) /\ (JS.eqv (key a) (key b) -> (idx a < idx b)%nat).

(** A number that is finite or +Infinity. *)
Definition upper (a : number) : Prop :=
  match a with
  | JS.Fin _ | JS.PInf => True
  | _ => False
  end.

(** The invariant of the [predictions] array while the rules run: the
    findings are in rule order, come from rules below [n], and have a
    probability that is not NaN. *)
Definition predictions_inv (n : nat) (l : list DiseasePrediction) : Prop :=
  StronglySorted (idx_lt rule_index) l
  /\ Forall (fun d => (rule_index d < n)%nat /\ ordered_key probability d) l.

(** A finite number that is not negative. *)
Definition nonnegative (a : number) : bool :=
  match a with
  | JS.Fin q => Qle_bool 0 q
  | _ => false
  end.

(** A valid [LifestyleFactors], as the interface declares it. *)
Definition valid_lifestyle (l : LifestyleFactors) : bool :=
  mem l.(diet) diet_domain
  && mem l.(mealTiming) mealTiming_domain
  && mem l.(waterIntake) waterIntake_domain
  && mem l.(stressManagement) stressManagement_domain
  && nonnegative l.(sleepHours) && nonnegative l.(exerciseMinutes)
  && nonnegative l.(screenTime).

(** A valid lifestyle with five hours of sleep. *)
Definition short_sleeper : LifestyleFactors :=
  {| diet := "vegetarian"; mealTiming := "regular";
     waterIntake := "moderate"; sleepHours := JS.of_Z 5;
     exerciseMinutes := JS.of_Z 30; stressManagement := "yoga";
     screenTime := JS.of_Z 4; lifestyle_exerciseFrequency := None |}.

(** *** calculateLifestyleRisk *)

(** The factor names in evaluation order. *)
Definition term_names : list string :=
  [ "Inadequate Sleep"; "Low Physical Activity"; "Poor Stress Management";
    "Excessive Screen Time"; "Low Water Intake"; "Irregular Meal Times" ].

Definition term_index (r : RiskFactor) : nat := position r.(factor) term_names.

(** The six contribution terms with their values, in evaluation order. *)
Definition contribution_terms (lifestyle : LifestyleFactors)
    (params : HealthParameters) : list (string * number) :=
  [ ("Inadequate Sleep", sleepRisk lifestyle);
    ("Low Physical Activity", exerciseRisk lifestyle);
    ("Poor Stress Management", stressRisk lifestyle params);
    ("Excessive Screen Time", screenRisk lifestyle);
    ("Low Water Intake", waterRisk lifestyle);
    ("Irregular Meal Times", mealRisk lifestyle) ].

(** The impact string of a term: fixed for four terms, chosen by the
    threshold 20 on the score for the first two. *)
Definition impact_of (name : string) (value : number) : string :=
  if streq name "Inadequate Sleep" then
    if JS.gt value (JS.of_Z 20) then "High impact on health" else "Moderate impact"
  else if streq name "Low Physical Activity" then
    if JS.gt value (JS.of_Z 20) then "High impact on metabolism" else "Moderate impact"
  else if streq name "Poor Stress Management" then "High impact on mental health"
  else if streq name "Excessive Screen Time" then "Impact on eyes and posture"
  else if streq name "Low Water Intake" then "Impact on digestion and detoxification"
  else "Impact on digestion and metabolism".

Definition candidate_factors (lifestyle : LifestyleFactors)
    (params : HealthParameters) : list RiskFactor :=
  map (fun '(name, value) =>
         {| factor := name; impact := impact_of name value; score := value |})
      (contribution_terms lifestyle params).

Definition nonneg (a : number) : Prop := JS.le (JS.of_Z 0) a.

(** The lifestyle of the clamping example (section 8); [diet] and
    [exerciseMinutes] are not given there. *)
Definition worst_lifestyle (d : string) (minutes : number) : LifestyleFactors :=
  {| diet := d; mealTiming := "irregular"; waterIntake := "low";
     sleepHours := JS.of_Z 0; exerciseMinutes := minutes;
     stressManagement := "none"; screenTime := JS.of_Z 24;
     lifestyle_exerciseFrequency := Some "rarely" |}.

Definition positive_score (r : RiskFactor) : bool := positive_risk r.(score).

(** The reading of C9 in which every factor has one static impact string:
    some table from factor names to strings gives the impact of every
    reported factor, whatever the input. *)
Definition impact_is_static : Prop :=
  exists table : string -> string,
    forall lifestyle params r,
      In r (calculateLifestyleRisk lifestyle params).(riskFactors) ->
      r.(impact) = table r.(factor).

(** A valid lifestyle, as the assessment form submits it (no
    [exerciseFrequency] property), with a given number of hours of sleep. *)
Definition sleeps (hours : Z) : LifestyleFactors :=
  {| diet := "vegetarian"; mealTiming := "regular";
     waterIntake := "moderate"; sleepHours := JS.of_Z hours;
     exerciseMinutes := JS.of_Z 30; stressManagement := "yoga";
     screenTime := JS.of_Z 4; lifestyle_exerciseFrequency := None |}.

(** *** getDominantDosha *)

Definition score_of (s : DoshaScores) (label : string) : number :=
  if streq label "Vata" then s.(vata)
  else if streq label "Pitta" then s.(pitta)
  else s.(kapha).

(** [x] is at least each of the three scores. *)
Definition is_max (s : DoshaScores) (x : number) : Prop :=
  JS.le s.(vata) x /\ JS.le s.(pitta) x /\ JS.le s.(kapha) x.

Definition no_NaN (s : DoshaScores) : Prop :=
  JS.is_NaN s.(vata) = false /\ JS.is_NaN s.(pitta) = false
  /\ JS.is_NaN s.(kapha) = false.

(** The profile of [rounding_example]. *)
Definition mixed_scores : DoshaScores :=
  {| vata := JS.of_Z 58; pitta := JS.of_Z 33; kapha := JS.of_Z 8 |}.

(** Scores of which one is NaN, as [calculateDoshaProfile] never returns
    them but the type [number] allows. *)
Definition NaN_vata_scores : DoshaScores :=
  {| vata := JS.NaN; pitta := JS.of_Z 50; kapha := JS.of_Z 10 |}.

(** One of the three scores is NaN. *)
Definition some_NaN (s : DoshaScores) : Prop :=
  JS.is_NaN s.(vata) = true \/ JS.is_NaN s.(pitta) = true
  \/ JS.is_NaN s.(kapha) = true.

(** No score is greater than [x]. *)
Definition not_exceeded (s : DoshaScores) (x : number) : Prop :=
  JS.lt x s.(vata) = false /\ JS.lt x s.(pitta) = false
  /\ JS.lt x s.(kapha) = false.

(** *** Input validation *)

(** How a call completes.  None of the three bodies has a [throw], a guard
    on its arguments or a call that can throw, so every call completes by
    returning the value computed. *)
Inductive completion (A : Type) : Type :=
| Returns (v : A)
| Throws.
Arguments Returns {A} v.
Arguments Throws {A}.

Definition run_calculateDoshaProfile (params : HealthParameters)
    : completion DoshaScores :=
  Returns (calculateDoshaProfile params).

Definition run_predictDiseases (doshaScores : DoshaScores)
    (lifestyle : LifestyleFactors) (params : HealthParameters)
    : completion (list DiseasePrediction) :=
  Returns (predictDiseases doshaScores lifestyle params).

Definition run_calculateLifestyleRisk (lifestyle : LifestyleFactors)
    (params : HealthParameters) : completion LifestyleRisk :=
  Returns (calculateLifestyleRisk lifestyle params).

Definition rejects {A : Type} (c : completion A) : Prop := c = Throws.

(** The invalid input domain of section 7: an enumerated value outside its
    declared set, or a non-positive height or weight. *)
Definition invalid_input (p : HealthParameters) : bool :=
  negb (enums_in_domain p)
  || negb (positive p.(weight)) || negb (positive p.(height)).

(** None of the six scored fields holds a value of its declared set. *)
Definition scored_out_of_domain (p : HealthParameters) : bool :=
  negb (mem p.(bodyTemperature) bodyTemperature_domain)
  && negb (mem p.(digestion) digestion_domain)
  && negb (mem p.(sleepPattern) sleepPattern_domain)
  && negb (mem p.(energyLevel) energyLevel_domain)
  && negb (mem p.(skinType) skinType_domain)
  && negb (mem p.(stressLevel) stressLevel_domain).

(** The profile with three NaN percentages. *)
Definition NaN_scores : DoshaScores :=
  {| vata := JS.NaN; pitta := JS.NaN; kapha := JS.NaN |}.

(** Every enumerated value outside its declared set. *)
Definition garbage_params : HealthParameters :=
  {| age := JS.of_Z 30; weight := JS.of_Z 70; height := JS.of_Z 170;
     bodyTemperature := "hot"; digestion := "fast";
     sleepPattern := "none"; energyLevel := "low";
     skinType := "mixed"; stressLevel := "extreme";
     exerciseFrequency := "never" |}.

(** Valid enumerated values, but a height of zero. *)
Definition zero_height_params : HealthParameters :=
  {| age := JS.of_Z 30; weight := JS.of_Z 70; height := JS.of_Z 0;
     bodyTemperature := "neutral"; digestion := "slow";
     sleepPattern := "deep"; energyLevel := "steady";
     skinType := "normal"; stressLevel := "low";
     exerciseFrequency := "rarely" |}.

(** A lifestyle that carries [exerciseFrequency: 'rarely']. *)
Definition sedentary_lifestyle : LifestyleFactors :=
  {| diet := "vegetarian"; mealTiming := "regular";
     waterIntake := "moderate"; sleepHours := JS.of_Z 8;
     exerciseMinutes := JS.of_Z 0; stressManagement := "yoga";
     screenTime := JS.of_Z 4; lifestyle_exerciseFrequency := Some "rarely" |}.

(* ------------------------------------------------------------------ *)
(** ** The rest of the analytics module and its callers *)

Local Open Scope string_scope.

(** *** getDoshaDescription *)

(** The own properties of the [descriptions] object literal. *)
Definition descriptions : list (string * string) :=
  [ ("Vata", "Vata governs movement, creativity, and communication. When balanced: energetic, creative, adaptable. When imbalanced: anxious, restless, irregular digestion.");
    ("Pitta", "Pitta governs metabolism, digestion, and transformation. When balanced: intelligent, focused, warm. When imbalanced: irritable, inflammatory conditions, hyperacidity.");
    ("Kapha", "Kapha governs structure, stability, and lubrication. When balanced: calm, strong, nurturing. When imbalanced: sluggish, weight gain, congestion.") ].

(** The property names that an object literal inherits from
    [Object.prototype]; reading one of them yields a function or an object,
    not a string. *)
Definition Object_prototype_properties : list string :=
  [ "constructor"; "hasOwnProperty"; "isPrototypeOf"; "propertyIsEnumerable";
    "toLocaleString"; "toString"; "valueOf"; "__proto__";
    "__defineGetter__"; "__defineSetter__"; "__lookupGetter__";
    "__lookupSetter__" ].

(** What [descriptions[key]] evaluates to. *)
Inductive property_value : Type :=
| StringValue (s : string)
| InheritedValue
| UndefinedValue.

Definition get_property (o : list (string * string)) (key : string)
    : property_value :=
  match assoc key o with
  | Some s => StringValue s
  | None => if mem key Object_prototype_properties then InheritedValue
            else UndefinedValue
  end.

(** [v || d]: [d] when [v] is undefined or the empty string. *)
Definition or_default (v : property_value) (d : string) : property_value :=
  match v with
  | StringValue s => if String.eqb s "" then StringValue d else StringValue s
  | InheritedValue => InheritedValue
  | UndefinedValue => StringValue d
  end.

Definition getDoshaDescription (dosha : string) : property_value :=
  or_default (get_property descriptions dosha) "".

(** *** The dashboards (HealthDashboard and EnhancedHealthDashboard) *)

(** [a >= b]; false as soon as one side is NaN. *)
Definition js_ge (a b : number) : bool :=
  match a, b with
  | JS.NaN, _ | _, JS.NaN => false
  | _, _ => negb (JS.lt a b)
  end.

(** [{cond && text}] in JSX: the text when the condition holds, nothing
    otherwise. *)
Definition when_shown (c : bool) (text : string) : list string :=
  if c then [text] else [].

Module HealthDashboard.

Definition getRiskColor (risk : number) : string :=
  if JS.lt risk (JS.of_Z 30) then "text-green-600"
  else if JS.lt risk (JS.of_Z 60) then "text-yellow-600"
  else "text-red-600".

Definition getSeverityColor (severity : string) : string :=
  if streq severity "low" then "bg-green-100 text-green-800"
  else if streq severity "moderate" then "bg-yellow-100 text-yellow-800"
  else if streq severity "high" then "bg-red-100 text-red-800"
  else "bg-gray-100 text-gray-800".

(** The three conditional lines under the overall risk score. *)
Definition risk_messages (overallRisk : number) : list string :=
  when_shown (JS.lt overallRisk (JS.of_Z 30))
    "Low risk - Excellent lifestyle habits!"
  ++ when_shown (js_ge overallRisk (JS.of_Z 30)
                 && JS.lt overallRisk (JS.of_Z 60))
    "Moderate risk - Room for improvement"
  ++ when_shown (js_ge overallRisk (JS.of_Z 60))
    "High risk - Immediate lifestyle changes recommended".

(** The value of the progress bar of a risk factor: [(score / 30) * 100]. *)
Definition factor_progress (f : RiskFactor) : number :=
  JS.mul (JS.div f.(score) (JS.of_Z 30)) (JS.of_Z 100).

End HealthDashboard.

Module EnhancedHealthDashboard.

Definition getRiskColor (risk : number) : string :=
  if JS.lt risk (JS.of_Z 30) then "text-green-600"
  else if JS.lt risk (JS.of_Z 60) then "text-yellow-600"
  else "text-red-600".

Definition getSeverityColor (severity : string) : string :=
  if streq severity "low" then "bg-green-100 text-green-800 border-green-300"
  else if streq severity "moderate"
       then "bg-yellow-100 text-yellow-800 border-yellow-300"
  else if streq severity "high" then "bg-red-100 text-red-800 border-red-300"
  else "bg-gray-100 text-gray-800 border-gray-300".

(** The status line of [generateTextReport]. *)
Definition report_status (overallRisk : number) : string :=
  if JS.lt overallRisk (JS.of_Z 30) then "✅ Low Risk - Excellent!"
  else if JS.lt overallRisk (JS.of_Z 60) then "⚠️ Moderate Risk"
  else "🚨 High Risk".

(** The bar colour of [generateComprehensiveReportHTML]. *)
Definition report_bar_colour (overallRisk : number) : string :=
  if JS.lt overallRisk (JS.of_Z 30) then "#87a96b"
  else if JS.lt overallRisk (JS.of_Z 60) then "#d4af37"
  else "#c65d3b".

(** [Math.round(pred.probability * 100)], the percentage displayed for a
    finding. *)
Definition displayed_percent (pred : DiseasePrediction) : number :=
  JS.round (JS.mul pred.(probability) (JS.of_Z 100)).

End EnhancedHealthDashboard.

(** The three risk tiers behind the colours and the status texts. *)
Inductive risk_tier : Type := LowRisk | ModerateRisk | HighRisk.

Definition tier_of_colour (c : string) : option risk_tier :=
  if streq c "text-green-600" then Some LowRisk
  else if streq c "text-yellow-600" then Some ModerateRisk
  else if streq c "text-red-600" then Some HighRisk
  else None.

Definition tier_of_message (m : string) : option risk_tier :=
  if streq m "Low risk - Excellent lifestyle habits!" then Some LowRisk
  else if streq m "Moderate risk - Room for improvement" then Some ModerateRisk
  else if streq m "High risk - Immediate lifestyle changes recommended"
       then Some HighRisk
  else None.

Definition tier_of_status (m : string) : option risk_tier :=
  if streq m "✅ Low Risk - Excellent!" then Some LowRisk
  else if streq m "⚠️ Moderate Risk" then Some ModerateRisk
  else if streq m "🚨 High Risk" then Some HighRisk
  else None.

(** The declared severities. *)
Definition severity_domain : list string := ["low"; "moderate"; "high"].

(** The label of the largest accumulator, Vata before Pitta before
    Kapha on ties. *)
Definition largest_accumulator (params : HealthParameters) : string :=
  let '(v, p, k) := accumulators params in
  if ((p <=? v) && (k <=? v))%Z then "Vata"
  else if (k <=? p)%Z then "Pitta"
  else "Kapha".

(** A profile with no dominant dosha. *)
Definition balanced_scores : DoshaScores :=
  {| vata := JS.of_Z 33; pitta := JS.of_Z 33; kapha := JS.of_Z 33 |}.

(** Valid attributes with low stress and steady energy. *)
Definition calm_params : HealthParameters :=
  {| age := JS.of_Z 40; weight := JS.of_Z 65; height := JS.of_Z 170;
     bodyTemperature := "neutral"; digestion := "slow";
     sleepPattern := "deep"; energyLevel := "steady";
     skinType := "normal"; stressLevel := "low";
     exerciseFrequency := "daily" |}.

(** A valid lifestyle, as the form submits it, with eight hours of sleep. *)
Definition rested_lifestyle : LifestyleFactors :=
  {| diet := "vegetarian"; mealTiming := "regular";
     waterIntake := "high"; sleepHours := JS.of_Z 8;
     exerciseMinutes := JS.of_Z 30; stressManagement := "yoga";
     screenTime := JS.of_Z 4; lifestyle_exerciseFrequency := None |}.

(** The findings whose guard requires a high stress level. *)
Definition stress_findings : list string :=
  [ "Anxiety & Sleep Disorders"; "Hyperacidity & Inflammatory Conditions";
    "Digital Eye Strain & Mental Fatigue"; "Chronic Stress & Burnout Risk" ].

(** A kapha-dominant profile. *)
Definition kapha_scores : DoshaScores :=
  {| vata := JS.of_Z 0; pitta := JS.of_Z 0; kapha := JS.of_Z 100 |}.

(** Valid attributes with a BMI above 30 and [exerciseFrequency: 'rarely']. *)
Definition heavy_params : HealthParameters :=
  {| age := JS.of_Z 40; weight := JS.of_Z 90; height := JS.of_Z 170;
     bodyTemperature := "neutral"; digestion := "slow";
     sleepPattern := "deep"; energyLevel := "steady";
     skinType := "normal"; stressLevel := "low";
     exerciseFrequency := "rarely" |}.

(** The scores of a factor list added up from zero, from the left, in the
    order of the list: [((0 + s1) + s2) + ...]. *)
Definition running_total (l : list RiskFactor) : number :=
  fold_left (fun total r => JS.add total r.(score)) l (JS.of_Z 0).

(** The invariant of the body of [calculateLifestyleRisk]: [totalRisk] is
    the running total of the factors pushed so far. *)
Definition total_is_sum (st : risk_state) : Prop :=
  snd st = running_total (fst st).

(* ------------------------------------------------------------------ *)
(** ** The server: bearer tokens, storage keys, practitioners *)

(** [s.split(sep)] for a one-character separator. *)
Fixpoint js_split (sep : ascii) (s : string) : list string :=
  match s with
  | EmptyString => [EmptyString]
  | String c s' =>
      if Ascii.eqb c sep then EmptyString :: js_split sep s'
      else match js_split sep s' with
           | seg :: rest => String c seg :: rest
           | [] => [String c EmptyString]
           end
  end.

(** The character [c] occurs in [s]. *)
Fixpoint contains (c : ascii) (s : string) : bool :=
  match s with
  | EmptyString => false
  | String c' s' => Ascii.eqb c' c || contains c s'
  end.

(** [c.req.header('Authorization')?.split(' ')[1]]: the access token that
    every authenticated handler extracts. *)
Definition bearer_token (authHeader : option string) : option string :=
  match authHeader with
  | None => None
  | Some h => nth_error (js_split " " h) 1
  end.

(** How [supabase.auth.getUser()] ends for a client that carries a given
    token: it resolves to [{ data: { user }, error }] or it throws. *)
Inductive getUser_outcome (user : Type) : Type :=
| Resolved (data_user : option user) (error : bool)
| Thrown.
Arguments Resolved {user} data_user error.
Arguments Thrown {user}.

(** [verifyUser]: the user of an access token, or null. *)
Definition verifyUser {user : Type} (getUser : string -> getUser_outcome user)
    (accessToken : option string) : option user :=
  match accessToken with
  | None => None
  | Some token =>
      if String.eqb token "" then None
      else match getUser token with
           | Resolved data_user error => if error then None else data_user
           | Thrown => None
           end
  end.

(** The [Authorization] header that [apiRequest] sends when its options
    carry no headers: [`Bearer ${token || publicAnonKey}`]. *)
Definition authorization_header (publicAnonKey : string)
    (token : option string) : string :=
  "Bearer " ++
  match token with
  | Some t => if String.eqb t "" then publicAnonKey else t
  | None => publicAnonKey
  end.

(** The storage keys of the handlers. *)
Definition profile_key (userId : string) : string :=
  "user:" ++ userId ++ ":profile".

Definition latest_key (userId kind : string) : string :=
  "user:" ++ userId ++ ":" ++ kind ++ ":latest".

Definition history_key (userId kind timestamp : string) : string :=
  "user:" ++ userId ++ ":" ++ kind ++ ":history:" ++ timestamp.

(** The prefix listed by [GET /history/:type]. *)
Definition history_prefix (userId type : string) : string :=
  "user:" ++ userId ++ ":" ++ type ++ ":history:".

(** The kinds under which the handlers store data. *)
Definition stored_kinds : list string :=
  ["dosha"; "health"; "predictions"; "lifestyle"].

Record Doctor : Type := mkDoctor {
  name : string;
  specialty : string;
  ayushFocus : string;
  rating : number;
  distance : string;
  address : string;
  phone : string;
  availability : string;
  consultationFee : string
}.

(** [doctors[0].ayushFocus = focus]. *)
Definition set_first_ayushFocus (focus : string) (doctors : list Doctor)
    : list Doctor :=
  match doctors with
  | [] => []
  | d :: rest =>
      {| name := d.(name); specialty := d.(specialty); ayushFocus := focus;
         rating := d.(rating); distance := d.(distance);
         address := d.(address); phone := d.(phone);
         availability := d.(availability);
         consultationFee := d.(consultationFee) |} :: rest
  end.

(** [location ? km : 'Location not available']. *)
Definition distance_or_unavailable {L : Type} (location : option L)
    (km : string) : string :=
  match location with
  | Some _ => km
  | None => "Location not available"
  end.

Definition generateDoctorRecommendations (doshaProfile : string)
    (conditions : list string) (location : option (number * number))
    : list Doctor :=
  let doctors := [
    {| name := "Dr. Priya Sharma";
       specialty := "Ayurvedic Medicine";
       ayushFocus := "Panchakarma & Dosha Balancing";
       rating := JS.Fin 4.8;
       distance := distance_or_unavailable location "1.2 km";
       address := "123 Wellness Center, Green Park";
       phone := "+91-9876543210";
       availability := "Mon-Sat, 9 AM - 6 PM";
       consultationFee := "₹800" |};
    {| name := "Dr. Rajesh Kumar";
       specialty := "Yoga Therapy";
       ayushFocus := "Stress Management & Pranayama";
       rating := JS.Fin 4.9;
       distance := distance_or_unavailable location "2.5 km";
       address := "456 Holistic Health Clinic, Central Avenue";
       phone := "+91-9876543211";
       availability := "Mon-Fri, 10 AM - 7 PM";
       consultationFee := "₹1000" |};
    {| name := "Dr. Meera Patel";
       specialty := "Naturopathy";
       ayushFocus := "Diet & Lifestyle Counseling";
       rating := JS.Fin 4.7;
       distance := distance_or_unavailable location "3.0 km";
       address := "789 Nature Cure Center, Herbal Lane";
       phone := "+91-9876543212";
       availability := "Tue-Sun, 8 AM - 5 PM";
       consultationFee := "₹700" |};
    {| name := "Dr. Anand Iyer";
       specialty := "Unani Medicine";
       ayushFocus := "Metabolic & Digestive Disorders";
       rating := JS.Fin 4.6;
       distance := distance_or_unavailable location "4.2 km";
       address := "321 Unani Clinic, Heritage Road";
       phone := "+91-9876543213";
       availability := "Mon-Sat, 10 AM - 8 PM";
       consultationFee := "₹900" |};
    {| name := "Dr. Lakshmi Reddy";
       specialty := "Siddha Medicine";
       ayushFocus := "Chronic Disease Management";
       rating := JS.Fin 4.9;
       distance := distance_or_unavailable location "2.8 km";
       address := "567 Siddha Healthcare, Temple Street";
       phone := "+91-9876543214";
       availability := "Mon-Fri, 9 AM - 6 PM";
       consultationFee := "₹850" |};
    {| name := "Dr. Vikram Singh";
       specialty := "Homeopathy";
       ayushFocus := "Allergy & Immunity";
       rating := JS.Fin 4.8;
       distance := distance_or_unavailable location "1.8 km";
       address := "890 Homeopathic Center, Garden Plaza";
       phone := "+91-9876543215";
       availability := "Tue-Sun, 11 AM - 7 PM";
       consultationFee := "₹600" |};
    (* Add general hospitals and doctors as fallback *)
    {| name := "City General Hospital";
       specialty := "Multi-Specialty Hospital";
       ayushFocus := "Integrated Medicine (AYUSH + Modern)";
       rating := JS.Fin 4.5;
       distance := distance_or_unavailable location "3.5 km";
       address := "111 Main Road, City Center";
       phone := "+91-9876543216";
       availability := "24/7 Emergency & OPD: 8 AM - 8 PM";
       consultationFee := "₹500 (General), ₹1500 (Specialist)" |};
    {| name := "Dr. Amit Malhotra, MD";
       specialty := "General Physician";
       ayushFocus := "Preventive Healthcare & Wellness";
       rating := JS.Fin 4.7;
       distance := distance_or_unavailable location "2.2 km";
       address := "222 Medical Plaza, Downtown";
       phone := "+91-9876543217";
       availability := "Mon-Sat, 9 AM - 9 PM";
       consultationFee := "₹800" |};
    {| name := "Wellness Integrated Clinic";
       specialty := "Integrative Medicine";
       ayushFocus := "AYUSH + Allopathy Combined Care";
       rating := JS.Fin 4.6;
       distance := distance_or_unavailable location "4.0 km";
       address := "333 Health Boulevard, Sector 5";
       phone := "+91-9876543218";
       availability := "Mon-Sun, 8 AM - 10 PM";
       consultationFee := "₹1200" |} ] in
  (* Customize based on dosha and conditions *)
  let doctors :=
    if streq doshaProfile "Vata"
    then set_first_ayushFocus "Vata Balancing & Anxiety Management" doctors
    else if streq doshaProfile "Pitta"
    then set_first_ayushFocus "Pitta Cooling & Inflammation Control" doctors
    else if streq doshaProfile "Kapha"
    then set_first_ayushFocus "Kapha Stimulation & Weight Management" doctors
    else doctors in
  doctors.


(** The request body that [fetchNearbyDoctors] sends, as the server's
    handler passes it on: the dominant dosha of the scores, the names of
    the predicted diseases, and the coordinates. *)
Definition nearby_doctors (doshaScores : DoshaScores)
    (predictions : list DiseasePrediction)
    (coords : option (number * number)) : list Doctor :=
  generateDoctorRecommendations (getDominantDosha doshaScores)
    (map disease predictions) coords.

(** The three customised specialisations of the first practitioner. *)
Definition customised_focus : list string :=
  [ "Vata Balancing & Anxiety Management";
    "Pitta Cooling & Inflammation Control";
    "Kapha Stimulation & Weight Management" ].

(** *** The application (App) *)

(** What [handleDoshaComplete] and [handleLifestyleComplete] compute from
    the two submitted forms: the profile, the findings predicted from that
    profile, and the lifestyle risk. *)
Definition analysis (params : HealthParameters) (lifestyle : LifestyleFactors)
    : DoshaScores * list DiseasePrediction * LifestyleRisk :=
  let scores := calculateDoshaProfile params in
  let diseasePredictions := predictDiseases scores lifestyle params in
  let risk := calculateLifestyleRisk lifestyle params in
  (scores, diseasePredictions, risk).

(** The three percentages are integers of at most 100. *)
Definition percent_scores (s : DoshaScores) : Prop :=
  exists a b c : Z,
    s = {| vata := JS.of_Z a; pitta := JS.of_Z b; kapha := JS.of_Z c |} /\
    (a <= 100 /\ b <= 100 /\ c <= 100)%Z.

(** [lifestyle] with another sleep duration, and with another screen
    time. *)
Definition with_sleepHours (l : LifestyleFactors) (h : number)
    : LifestyleFactors :=
  {| diet := l.(diet); mealTiming := l.(mealTiming);
     waterIntake := l.(waterIntake); sleepHours := h;
     exerciseMinutes := l.(exerciseMinutes);
     stressManagement := l.(stressManagement);
     screenTime := l.(screenTime);
     lifestyle_exerciseFrequency := l.(lifestyle_exerciseFrequency) |}.

Definition with_screenTime (l : LifestyleFactors) (h : number)
    : LifestyleFactors :=
  {| diet := l.(diet); mealTiming := l.(mealTiming);
     waterIntake := l.(waterIntake); sleepHours := l.(sleepHours);
     exerciseMinutes := l.(exerciseMinutes);
     stressManagement := l.(stressManagement);
     screenTime := h;
     lifestyle_exerciseFrequency := l.(lifestyle_exerciseFrequency) |}.

(* ------------------------------------------------------------------ *)
(** ** Input that is not valid *)

(** The declared set of the values of a scored attribute. *)
Definition attribute_domain (attribute : string) : list string :=
  if streq attribute "bodyTemperature" then bodyTemperature_domain
  else if streq attribute "digestion" then digestion_domain
  else if streq attribute "sleepPattern" then sleepPattern_domain
  else if streq attribute "energyLevel" then energyLevel_domain
  else if streq attribute "skinType" then skinType_domain
  else if streq attribute "stressLevel" then stressLevel_domain
  else [].

(** A value as the comparisons of [calculateDoshaProfile] see it: itself
    when it is in the declared set, and otherwise the empty string, which
    like every out-of-domain value is equal to none of the literals. *)
Definition seen_as (dom : list string) (value : string) : string :=
  if mem value dom then value else "".

(** The input as [calculateDoshaProfile] sees it. *)
Definition seen (p : HealthParameters) : HealthParameters :=
  mkHealthParameters (JS.of_Z 30) (JS.of_Z 70) (JS.of_Z 170)
    (seen_as bodyTemperature_domain p.(bodyTemperature))
    (seen_as digestion_domain p.(digestion))
    (seen_as sleepPattern_domain p.(sleepPattern))
    (seen_as energyLevel_domain p.(energyLevel))
    (seen_as skinType_domain p.(skinType))
    (seen_as stressLevel_domain p.(stressLevel)) "daily".

(** A declared set with one more value for all that is outside it. *)
Definition or_outside (dom : list string) : list string := dom ++ [""].

(** All the combinations of the six scored fields, valid or not, up to
    what the comparisons see: 4096 inputs. *)
Definition all_scored_inputs : list HealthParameters :=
  flat_map (fun bt => flat_map (fun dg => flat_map (fun sp =>
  flat_map (fun en => flat_map (fun sk => map (fun st =>
    mkHealthParameters (JS.of_Z 30) (JS.of_Z 70) (JS.of_Z 170)
      bt dg sp en sk st "daily")
  (or_outside stressLevel_domain)) (or_outside skinType_domain))
  (or_outside energyLevel_domain)) (or_outside sleepPattern_domain))
  (or_outside digestion_domain)) (or_outside bodyTemperature_domain).

(** Three integer percentages. *)
Definition integer_percentages (s : DoshaScores) : Prop :=
  exists a b c : Z,
    s = {| vata := JS.of_Z a; pitta := JS.of_Z b; kapha := JS.of_Z c |} /\
    (0 <= a <= 100 /\ 0 <= b <= 100 /\ 0 <= c <= 100)%Z.

(** The decidable content of what [calculateDoshaProfile] does on any
    input. *)
Definition any_input_check (p : HealthParameters) : bool :=
  let '(v, pi, k) := accumulators p in
  let '(a, b, c) := table_total p in
  let t := (v + pi + k)%Z in
  ((v =? a)%Z && (pi =? b)%Z && (k =? c)%Z
   && (if scored_out_of_domain p
       then (t =? 0)%Z
       else negb (t =? 0)%Z
            && (0 <=? pct v t)%Z && (pct v t <=? 100)%Z
            && (0 <=? pct pi t)%Z && (pct pi t <=? 100)%Z
            && (0 <=? pct k t)%Z && (pct k t <=? 100)%Z))%bool.

(** Valid attributes but for the body temperature. *)
Definition hot_params : HealthParameters :=
  {| age := JS.of_Z 30; weight := JS.of_Z 70; height := JS.of_Z 170;
     bodyTemperature := "hot"; digestion := "irregular";
     sleepPattern := "light"; energyLevel := "high";
     skinType := "oily"; stressLevel := "low";
     exerciseFrequency := "daily" |}.

(** What [predictDiseases] reads of the health parameters: the BMI and
    five comparisons with a literal. *)
Definition same_tests (p p' : HealthParameters) : Prop :=
  bmi_of p = bmi_of p' /\
  streq p.(stressLevel) "high" = streq p'.(stressLevel) "high" /\
  streq p.(digestion) "irregular" = streq p'.(digestion) "irregular" /\
  streq p.(digestion) "slow" = streq p'.(digestion) "slow" /\
  streq p.(bodyTemperature) "warm" = streq p'.(bodyTemperature) "warm" /\
  streq p.(energyLevel) "variable" = streq p'.(energyLevel) "variable".

(** The enumerated attribute that the rule of a finding tests, with the
    value that it requires. *)
Definition tested (finding : string) : option (string * string) :=
  if mem finding stress_findings then Some ("stressLevel", "high")
  else if streq finding "Digestive Irregularity (Vishamagni)"
  then Some ("digestion", "irregular")
  else if streq finding "Sluggish Digestion & Water Retention"
  then Some ("digestion", "slow")
  else if streq finding "Skin Inflammation & Rashes"
  then Some ("bodyTemperature", "warm")
  else if streq finding "Constitutional Weakness"
  then Some ("energyLevel", "variable")
  else None.

Local Open Scope Z_scope.

(* ------------------------------------------------------------------ *)
(** * Properties *)

(** ** Numbers *)

Lemma of_Z_inj (a b : Z) : JS.of_Z a = JS.of_Z b -> a = b.
Proof. unfold JS.of_Z, inject_Z. intros H. now injection H. Qed.

Lemma Qeq_bool_inject_Z_0 (t : Z) : t <> 0 -> Qeq_bool (inject_Z t) 0 = false.
Proof.
  intros Ht. destruct (Qeq_bool (inject_Z t) 0) eqn:E; [|reflexivity].
  apply Qeq_bool_eq in E. unfold Qeq in E. simpl in E. lia.
Qed.

Lemma div_of_Z (x t : Z) :
  t <> 0 -> JS.div (JS.of_Z x) (JS.of_Z t) = JS.Fin (inject_Z x / inject_Z t).
Proof.
  intros Ht. unfold JS.div, JS.of_Z. now rewrite Qeq_bool_inject_Z_0.
Qed.

Lemma percentage_of_Z (x t : Z) :
  t <> 0 -> percentage x t = JS.of_Z (pct x t).
Proof.
  intros Ht. unfold percentage. rewrite div_of_Z by assumption. reflexivity.
Qed.

Lemma triple_eq (a b c a' b' c' : Z) :
  (a, b, c) = (a', b', c') -> a = a' /\ b = b' /\ c = c'.
Proof. intros H. injection H as -> -> ->. auto. Qed.

(** ** Enumeration of the valid inputs of [calculateDoshaProfile] *)

Lemma mem_In (s : string) (dom : list string) : mem s dom = true -> In s dom.
Proof.
  unfold mem. rewrite existsb_exists. intros (x & Hx & E).
  apply String.eqb_eq in E. now subst.
Qed.

Lemma accumulators_canon (p : HealthParameters) :
  accumulators (canon p) = accumulators p.
Proof. reflexivity. Qed.

Lemma scored_attributes_canon (p : HealthParameters) :
  scored_attributes (canon p) = scored_attributes p.
Proof. reflexivity. Qed.

Lemma scored_combinations_complete (p : HealthParameters) :
  enums_in_domain p = true -> In (canon p) all_scored_combinations.
Proof.
  unfold enums_in_domain. rewrite !andb_true_iff.
  intros [[[[[[Hbt Hdg] Hsp] Hen] Hsk] Hst] _].
  apply mem_In in Hbt, Hdg, Hsp, Hen, Hsk, Hst.
  unfold all_scored_combinations, canon.
  apply in_flat_map. exists p.(bodyTemperature). split; [assumption|].
  apply in_flat_map. exists p.(digestion). split; [assumption|].
  apply in_flat_map. exists p.(sleepPattern). split; [assumption|].
  apply in_flat_map. exists p.(energyLevel). split; [assumption|].
  apply in_flat_map. exists p.(skinType). split; [assumption|].
  apply in_map_iff. exists p.(stressLevel). split; [reflexivity|assumption].
Qed.

(** A property decided on the 729 combinations holds of every input whose
    enumerated fields are in their domains. *)
Lemma forall_scored (check : HealthParameters -> bool) :
  forallb check all_scored_combinations = true ->
  forall p, enums_in_domain p = true -> check (canon p) = true.
Proof.
  intros Hall p Hp. rewrite forallb_forall in Hall.
  apply Hall. now apply scored_combinations_complete.
Qed.

Lemma valid_enums (p : HealthParameters) :
  valid_params p = true -> enums_in_domain p = true.
Proof.
  unfold valid_params. rewrite !andb_true_iff. tauto.
Qed.

(** ** calculateDoshaProfile *)

(** C1, as stated, fails: [rounding_example] is valid and its three
    percentages are 58, 33 and 8, which sum to 99; so not every valid input
    gets percentages that sum to exactly 100. *)
Lemma percentages_sum_not_always_100 :
  valid_params rounding_example = true /\
  calculateDoshaProfile rounding_example =
    {| vata := JS.of_Z 58; pitta := JS.of_Z 33; kapha := JS.of_Z 8 |} /\
  ~ (forall p, valid_params p = true ->
       exists a b c : Z,
         calculateDoshaProfile p =
           {| vata := JS.of_Z a; pitta := JS.of_Z b; kapha := JS.of_Z c |} /\
         0 <= a /\ 0 <= b /\ 0 <= c /\ a + b + c = 100).
Proof.
  split; [reflexivity|]. split; [reflexivity|].
  intros H. destruct (H rounding_example eq_refl) as (a & b & c & E & _ & _ & _ & S).
  change (calculateDoshaProfile rounding_example)
    with {| vata := JS.of_Z 58; pitta := JS.of_Z 33; kapha := JS.of_Z 8 |} in E.
  injection E as Ea Eb Ec.
  unfold inject_Z in *.
  lia.
Qed.

(** C1, amended: for every valid input the three percentages are integers
    between 0 and 100, and their sum is 99, 100 or 101 (each percentage is
    rounded on its own; nothing reconciles the sum). *)
Theorem percentages_range_and_sum (p : HealthParameters) :
  valid_params p = true ->
  exists a b c : Z,
    calculateDoshaProfile p =
      {| vata := JS.of_Z a; pitta := JS.of_Z b; kapha := JS.of_Z c |} /\
    0 <= a <= 100 /\ 0 <= b <= 100 /\ 0 <= c <= 100 /\
    99 <= a + b + c <= 101.
Proof.
  intros Hv.
  assert (Hall : forallb sum_check all_scored_combinations = true)
    by (vm_compute; reflexivity).
  pose proof (forall_scored sum_check Hall p (valid_enums p Hv)) as H.
  unfold sum_check in H. rewrite accumulators_canon in H.
  unfold calculateDoshaProfile.
  destruct (accumulators p) as [[v pi] k].
  cbv zeta in H. rewrite !andb_true_iff in H.
  destruct H as [[[[[[[[Ht Ha0] Ha1] Hb0] Hb1] Hc0] Hc1] Hs0] Hs1].
  apply negb_true_iff, Z.eqb_neq in Ht.
  exists (pct v (v + pi + k)), (pct pi (v + pi + k)), (pct k (v + pi + k)).
  rewrite !percentage_of_Z by assumption.
  split; [reflexivity|]. lia.
Qed.

Lemma percentages_range_and_sum_witness :
  valid_params example_params = true /\
  exists a b c : Z,
    calculateDoshaProfile example_params =
      {| vata := JS.of_Z a; pitta := JS.of_Z b; kapha := JS.of_Z c |} /\
    0 <= a <= 100 /\ 0 <= b <= 100 /\ 0 <= c <= 100 /\
    99 <= a + b + c <= 101.
Proof.
  split; [reflexivity | apply (percentages_range_and_sum example_params); reflexivity].
Defined.

(** C3, as stated, fails: on the example input the accumulators are
    13, 0, 0 (not 13, 0, 1), the total is 13 (not 14) and the first
    percentage is 100 (not 93). *)
Lemma example_is_not_13_0_1 :
  accumulators example_params <> (13, 0, 1) /\
  total_points example_params <> 14 /\
  (calculateDoshaProfile example_params).(vata) <> JS.of_Z 93.
Proof.
  split; [|split].
  - vm_compute. discriminate.
  - vm_compute. discriminate.
  - change ((calculateDoshaProfile example_params).(vata)) with (JS.of_Z 100).
    intros H. apply of_Z_inj in H. discriminate.
Qed.

(** C3, amended: on the example input the accumulators are A = 13, B = 0,
    C = 0 with total 13, and the percentages are 100, 0 and 0, which sum
    to 100. *)
Theorem example_profile :
  accumulators example_params = (13, 0, 0) /\
  total_points example_params = 13 /\
  calculateDoshaProfile example_params =
    {| vata := JS.of_Z 100; pitta := JS.of_Z 0; kapha := JS.of_Z 0 |} /\
  scores_sum (calculateDoshaProfile example_params) = JS.of_Z 100.
Proof. repeat split; reflexivity. Qed.

Lemma table_check_all : forallb table_check all_scored_combinations = true.
Proof. vm_compute. reflexivity. Qed.

(** C4, as stated, fails: on the example input the six rows of the table
    already account for all 13 points, so [exerciseFrequency] adds
    nothing; only six enumerated attributes are scored. *)
Lemma seventh_attribute_not_scored :
  valid_params example_params = true /\
  ~ seventh_attribute_scored example_params.
Proof.
  split; [reflexivity|].
  intros (acc & n & Hn & E).
  change (accumulators example_params) with (13, 0, 0) in E.
  change (table_total example_params) with (13, 0, 0) in E.
  destruct acc; unfold plus3, award in E; apply triple_eq in E; lia.
Qed.

(** C4, amended: for every valid input each of the six enumerated
    attributes of the weight table (bodyTemperature, digestion,
    sleepPattern, energyLevel, skinType, stressLevel) adds the 1, 2 or 3
    points of its row to exactly one accumulator, the accumulators are the
    sums of these six contributions, and age, weight, height and
    exerciseFrequency contribute nothing. *)
Theorem accumulators_follow_table (p : HealthParameters) :
  valid_params p = true ->
  Forall (fun '(attribute, value) =>
            exists acc n, table_entry attribute value = Some (acc, n)
                          /\ 1 <= n <= 3)
         (scored_attributes p) /\
  accumulators p = table_total p /\
  forall a w h ef, accumulators (with_unscored p a w h ef) = accumulators p.
Proof.
  intros Hv.
  pose proof (forall_scored table_check table_check_all p (valid_enums p Hv))
    as H.
  unfold table_check in H.
  rewrite accumulators_canon, scored_attributes_canon in H.
  change (table_total (canon p)) with (table_total p) in H.
  destruct (accumulators p) as [[v pi] k] eqn:Eacc.
  destruct (table_total p) as [[a b] c].
  rewrite !andb_true_iff, !Z.eqb_eq, forallb_forall in H.
  destruct H as [[[-> ->] ->] Hrows].
  split; [|split; [reflexivity|]].
  - apply Forall_forall. intros [attribute value] Hin.
    specialize (Hrows _ Hin). cbv beta iota in Hrows.
    destruct (table_entry attribute value) as [[acc n]|]; [|discriminate].
    exists acc, n. split; [reflexivity|].
    unfold table_points_ok in Hrows.
    rewrite andb_true_iff, !Z.leb_le in Hrows. exact Hrows.
  - intros a' w h ef. rewrite <- Eacc. reflexivity.
Qed.

Lemma accumulators_follow_table_witness :
  valid_params example_params = true /\
  (Forall (fun '(attribute, value) =>
             exists acc n, table_entry attribute value = Some (acc, n)
                           /\ 1 <= n <= 3)
          (scored_attributes example_params) /\
   accumulators example_params = table_total example_params /\
   forall a w h ef,
     accumulators (with_unscored example_params a w h ef)
     = accumulators example_params).
Proof.
  split; [reflexivity|].
  apply (accumulators_follow_table example_params). reflexivity.
Defined.

Lemma no_tie_sound (x t : Z) :
  0 < t -> no_tie x t = true -> forall j, 200 * x <> (2 * j + 1) * t.
Proof.
  unfold no_tie. intros Ht H j E.
  apply negb_true_iff, Z.eqb_neq in H. apply H.
  rewrite E.
  replace ((2 * j + 1) * t) with (t + j * (2 * t)) by ring.
  rewrite Z.mod_add by lia. apply Z.mod_small. lia.
Qed.

(** On valid input the total is at most 13 and no quotient
    [100 * x / total] is half an odd integer: [Math.round] is never within
    1/26 of a tie, so neither the tie rule nor the rounding error of
    binary64 arithmetic can change a percentage. *)
Lemma round_never_at_tie (p : HealthParameters) :
  valid_params p = true ->
  forall v pi k, accumulators p = (v, pi, k) ->
    0 < v + pi + k <= 13 /\
    forall x, In x [v; pi; k] ->
      forall j, 200 * x <> (2 * j + 1) * (v + pi + k).
Proof.
  intros Hv v pi k Eacc.
  assert (Hall : forallb tie_check all_scored_combinations = true)
    by (vm_compute; reflexivity).
  pose proof (forall_scored tie_check Hall p (valid_enums p Hv)) as H.
  unfold tie_check in H. rewrite accumulators_canon, Eacc in H.
  cbv zeta in H. rewrite !andb_true_iff in H.
  destruct H as [[[[Ht0 Ht1] Hx] Hy] Hz].
  apply Z.ltb_lt in Ht0. apply Z.leb_le in Ht1.
  split; [lia|].
  intros x [<-|[<-|[<-|[]]]]; now apply no_tie_sound.
Qed.

(** C8: for every valid input the sum of the three accumulators is
    strictly positive, each scored attribute contributing at least one
    point to some accumulator, so the normalising division of
    [calculateDoshaProfile] never has a zero divisor: every quotient is a
    finite number. *)
Theorem total_points_positive (p : HealthParameters) :
  valid_params p = true ->
  0 < total_points p /\
  Forall (fun '(attribute, value) =>
            exists acc n, table_entry attribute value = Some (acc, n)
                          /\ 1 <= n)
         (scored_attributes p) /\
  accumulators p = table_total p /\
  forall x : Z,
    JS.div (JS.of_Z x) (JS.of_Z (total_points p))
    = JS.Fin (inject_Z x / inject_Z (total_points p)).
Proof.
  intros Hv.
  assert (Hall : forallb (fun q => (0 <? total_points q) && table_check q)
                   all_scored_combinations = true)
    by (vm_compute; reflexivity).
  pose proof (forall_scored _ Hall p (valid_enums p Hv)) as H.
  cbv beta in H. unfold table_check in H.
  change (total_points (canon p)) with (total_points p) in H.
  rewrite accumulators_canon, scored_attributes_canon in H.
  change (table_total (canon p)) with (table_total p) in H.
  apply andb_true_iff in H. destruct H as [Hpos H].
  apply Z.ltb_lt in Hpos.
  destruct (accumulators p) as [[v pi] k].
  destruct (table_total p) as [[a b] c].
  rewrite !andb_true_iff, !Z.eqb_eq, forallb_forall in H.
  destruct H as [[[-> ->] ->] Hrows].
  split; [assumption|]. split; [|split; [reflexivity|]].
  - apply Forall_forall. intros [attribute value] Hin.
    specialize (Hrows _ Hin). cbv beta iota in Hrows.
    destruct (table_entry attribute value) as [[acc n]|]; [|discriminate].
    exists acc, n. split; [reflexivity|].
    unfold table_points_ok in Hrows.
    rewrite andb_true_iff, !Z.leb_le in Hrows. lia.
  - intros x. apply div_of_Z. lia.
Qed.

Lemma total_points_positive_witness :
  valid_params rounding_example = true /\
  (0 < total_points rounding_example /\
   Forall (fun '(attribute, value) =>
             exists acc n, table_entry attribute value = Some (acc, n)
                           /\ 1 <= n)
          (scored_attributes rounding_example) /\
   accumulators rounding_example = table_total rounding_example /\
   forall x : Z,
     JS.div (JS.of_Z x) (JS.of_Z (total_points rounding_example))
     = JS.Fin (inject_Z x / inject_Z (total_points rounding_example))).
Proof.
  split; [reflexivity|].
  apply (total_points_positive rounding_example). reflexivity.
Defined.

(** ** The order on numbers *)

Local Open Scope Q_scope.

Lemma Qlt_bool_iff (x y : Q) : JS.Qlt_bool x y = true <-> x < y.
Proof.
  unfold JS.Qlt_bool. rewrite negb_true_iff.
  destruct (Qle_bool y x) eqn:E.
  - apply Qle_bool_iff in E. split; [discriminate | intros H; exfalso; lra].
  - split; [intros _ | reflexivity].
    apply Qnot_le_lt. intros H. apply Qle_bool_iff in H. congruence.
Qed.

Lemma Qlt_bool_false (x y : Q) : JS.Qlt_bool x y = false <-> y <= x.
Proof.
  unfold JS.Qlt_bool. rewrite negb_false_iff. apply Qle_bool_iff.
Qed.

Lemma lt_false_le (a b : number) :
  JS.is_NaN a = false -> JS.is_NaN b = false ->
  JS.lt a b = false -> JS.le b a.
Proof.
  destruct a, b; simpl; try discriminate; auto.
  intros _ _. apply Qlt_bool_false.
Qed.

Lemma lt_le (a b : number) : JS.lt a b = true -> JS.le a b.
Proof.
  destruct a, b; simpl; try discriminate; auto.
  rewrite Qlt_bool_iff. lra.
Qed.

Lemma eqv_le (a b : number) : JS.eqv a b -> JS.le b a.
Proof. destruct a, b; simpl; auto. lra. Qed.

Lemma le_trans (a b c : number) : JS.le a b -> JS.le b c -> JS.le a c.
Proof. destruct a, b, c; simpl; auto; try tauto. lra. Qed.

Lemma le_cases (a b : number) :
  JS.le a b -> JS.lt a b = true \/ JS.eqv b a.
Proof.
  destruct a, b; simpl; auto.
  rewrite Qlt_bool_iff. intros H.
  destruct (Qlt_le_dec q q0); [left; assumption | right; lra].
Qed.

(** The comparators [(a, b) => b.key - a.key] of the module place [a]
    after [b] exactly when [a.key < b.key]. *)
Lemma sub_gt_0 (a b : number) :
  JS.is_NaN a = false -> JS.is_NaN b = false ->
  JS.gt (JS.sub b a) (JS.of_Z 0) = JS.lt a b.
Proof.
  destruct a as [x| | |], b as [y| | |]; simpl; try discriminate; auto.
  intros _ _. unfold JS.gt, JS.lt, JS.of_Z.
  destruct (JS.Qlt_bool x y) eqn:E.
  - apply Qlt_bool_iff in E. apply Qlt_bool_iff. unfold inject_Z. lra.
  - apply Qlt_bool_false in E. apply Qlt_bool_false. unfold inject_Z. lra.
Qed.

Local Close Scope Q_scope.

(** ** The stable sort under a comparator [(a, b) => b.key - a.key] *)

Section SortByKey.
Context {A : Type}.
Variable key : A -> number.
Variable idx : A -> nat.

Lemma precedes_desc (a b : A) : precedes key idx a b -> JS.le (key b) (key a).
Proof.
  intros [H | [H _]]; [now apply lt_le | now apply eqv_le].
Qed.

Lemma insert_perm (a : A) (l : list A) :
  Permutation (a :: l) (insert (by_key_desc key) a l).
Proof.
  induction l as [|b l IH]; simpl; [reflexivity|].
  destruct (placed_after (by_key_desc key) a b); [|reflexivity].
  rewrite perm_swap. now apply perm_skip.
Qed.

Lemma sort_perm (l : list A) : Permutation l (sort (by_key_desc key) l).
Proof.
  induction l as [|a l IH]; simpl; [reflexivity|].
  rewrite <- insert_perm. now apply perm_skip.
Qed.

Lemma insert_sorted (a : A) (l : list A) :
  ordered_key key a -> Forall (ordered_key key) l -> Forall (idx_lt idx a) l ->
  StronglySorted (precedes key idx) l ->
  StronglySorted (precedes key idx) (insert (by_key_desc key) a l).
Proof.
  intros Ha. induction l as [|b l IH]; intros Hord Hidx Hs; simpl.
  - repeat constructor.
  - inversion Hord as [|? ? Hb Hord']; subst.
    inversion Hidx as [|? ? Hab Hidx']; subst.
    inversion Hs as [|? ? Hs' Hbl]; subst.
    unfold placed_after, by_key_desc.
    rewrite sub_gt_0 by assumption.
    destruct (JS.lt (key a) (key b)) eqn:E.
    + constructor; [now apply IH|].
      apply (Permutation_Forall (insert_perm a l)).
      constructor; [now left | assumption].
    + constructor; [assumption|].
      assert (Hba : JS.le (key b) (key a)) by now apply lt_false_le.
      assert (Hall : Forall (fun c => JS.le (key c) (key a)) (b :: l)).
      { constructor; [assumption|].
        eapply Forall_impl; [|exact Hbl]. intros c Hc. cbv beta in Hc.
        eapply le_trans; [apply precedes_desc; exact Hc | exact Hba]. }
      rewrite Forall_forall in *. intros c Hc.
      destruct (le_cases _ _ (Hall c Hc)) as [H | H]; [now left|].
      right. split; [assumption | now apply Hidx].
Qed.

(** The sort returns a permutation of its input that is in descending
    order of key, elements of equal key keeping their input order. *)
Lemma sort_sorted (l : list A) :
  Forall (ordered_key key) l -> StronglySorted (idx_lt idx) l ->
  StronglySorted (precedes key idx) (sort (by_key_desc key) l).
Proof.
  induction l as [|a l IH]; intros Hord Hs; simpl; [constructor|].
  inversion Hord; subst. inversion Hs; subst.
  apply insert_sorted; auto.
  - apply (Permutation_Forall (sort_perm l)). assumption.
  - apply (Permutation_Forall (sort_perm l)). assumption.
Qed.

Lemma sorted_desc (l : list A) :
  StronglySorted (precedes key idx) l ->
  StronglySorted (fun a b => JS.le (key b) (key a)) l.
Proof.
  induction 1 as [|a l Hs IH Hall]; constructor; [assumption|].
  eapply Forall_impl; [|exact Hall]. intros b. apply precedes_desc.
Qed.

Lemma filter_sorted (f : A -> bool) (l : list A) :
  StronglySorted (idx_lt idx) l -> StronglySorted (idx_lt idx) (filter f l).
Proof.
  induction 1 as [|a l Hs IH Hall]; simpl; [constructor|].
  destruct (f a); [|assumption].
  constructor; [assumption|].
  rewrite Forall_forall in *. intros b Hb.
  apply filter_In in Hb. now apply Hall.
Qed.
End SortByKey.

(** ** predictDiseases *)

Lemma lt_eqv_absurd (a b : number) : JS.lt b a = true -> JS.eqv a b -> False.
Proof.
  destruct a, b; simpl; try discriminate; auto.
  rewrite Qlt_bool_iff. intros H1 H2. lra.
Qed.

Lemma precedes_ranked {A : Type} (key : A -> number) (idx : A -> nat) (a b : A) :
  precedes key idx a b -> ranked_before key idx a b.
Proof.
  intros H. split; [now apply (precedes_desc key idx)|].
  destruct H as [H | [_ H]]; [|intros _; exact H].
  intros E. destruct (lt_eqv_absurd _ _ H E).
Qed.

Lemma sort_ranked {A : Type} (key : A -> number) (idx : A -> nat) (l : list A) :
  Forall (ordered_key key) l -> StronglySorted (idx_lt idx) l ->
  StronglySorted (ranked_before key idx) (sort (by_key_desc key) l).
Proof.
  intros Hord Hs.
  pose proof (sort_sorted key idx l Hord Hs) as H.
  induction H as [|a l' Hs' IH Hall]; constructor; [assumption|].
  eapply Forall_impl; [|exact Hall]. intros b. apply precedes_ranked.
Qed.

Lemma gt_upper (a : number) (k : Z) : JS.gt a (JS.of_Z k) = true -> upper a.
Proof. destruct a; simpl; try discriminate; auto. Qed.

Lemma sorted_snoc {A : Type} (R : A -> A -> Prop) (l : list A) (x : A) :
  StronglySorted R l -> Forall (fun a => R a x) l ->
  StronglySorted R (l ++ [x]).
Proof.
  induction 1 as [|a l Hs IH Hall]; intros Hx; simpl.
  - repeat constructor.
  - inversion Hx; subst. constructor; [now apply IH|].
    apply Forall_app. split; [assumption | now constructor].
Qed.

Lemma inv_if_push (n m : nat) (c : bool) (x : DiseasePrediction)
    (l : list DiseasePrediction) :
  predictions_inv n l ->
  (n <= rule_index x < m)%nat -> (n <= m)%nat ->
  (c = true -> ordered_key probability x) ->
  predictions_inv m (if_then c (push x) l).
Proof.
  intros [Hs Hall] Hx Hnm Hc. unfold if_then, push.
  destruct c.
  - split.
    + apply sorted_snoc; [assumption|].
      eapply Forall_impl; [|exact Hall]. intros a [Ha _].
      unfold idx_lt. lia.
    + apply Forall_app. split.
      * eapply Forall_impl; [|exact Hall]. intros a [Ha Ho]. split; [lia|assumption].
      * constructor; [|constructor]. split; [lia | now apply Hc].
  - split; [assumption|].
    eapply Forall_impl; [|exact Hall]. intros a [Ha Ho]. split; [lia|assumption].
Qed.

Lemma inv_if_block (n m : nat) (c : bool)
    (body : list DiseasePrediction -> list DiseasePrediction)
    (l : list DiseasePrediction) :
  predictions_inv n l ->
  (c = true -> forall l', predictions_inv n l' -> predictions_inv m (body l')) ->
  (n <= m)%nat ->
  predictions_inv m (if_then c body l).
Proof.
  intros Hl Hb Hnm. unfold if_then. destruct c; [now apply Hb|].
  destruct Hl as [Hs Hall]. split; [assumption|].
  eapply Forall_impl; [|exact Hall]. intros a [Ha Ho]. split; [lia|assumption].
Qed.

(** Bounds on the rank of a literal finding. *)
Ltac idx_bounds :=
  match goal with
  | |- context [rule_index ?x] =>
      let v := eval vm_compute in (rule_index x) in
      change (rule_index x) with v; lia
  end.

Lemma predictions_of_inv (doshaScores : DoshaScores)
    (lifestyle : LifestyleFactors) (params : HealthParameters) :
  predictions_inv 10 (predictions_of doshaScores lifestyle params).
Proof.
  unfold predictions_of. cbv zeta.
  apply (inv_if_push 9 10); [|idx_bounds|lia|reflexivity].
  apply (inv_if_push 8 9); [|idx_bounds|lia|reflexivity].
  apply (inv_if_push 7 8); [|idx_bounds|lia|reflexivity].
  apply (inv_if_push 6 7); [|idx_bounds|lia|reflexivity].
  apply (inv_if_block 4 6); [| |lia].
  apply (inv_if_block 2 4); [| |lia].
  apply (inv_if_block 0 2); [| |lia].
  - split; constructor.
  - intros Hc l' Hl'. apply gt_upper in Hc.
    apply (inv_if_push 1 2); [|idx_bounds|lia|].
    apply (inv_if_push 0 1); [assumption|idx_bounds|lia|].
    + intros _. unfold ordered_key. simpl probability.
      destruct (vata doshaScores); try contradiction; reflexivity.
    + intros _. unfold ordered_key. simpl probability.
      destruct (vata doshaScores); try contradiction; reflexivity.
  - intros Hc l' Hl'. apply gt_upper in Hc.
    apply (inv_if_push 3 4); [|idx_bounds|lia|].
    apply (inv_if_push 2 3); [assumption|idx_bounds|lia|].
    + intros _. unfold ordered_key. simpl probability.
      destruct (pitta doshaScores); try contradiction; reflexivity.
    + intros _. unfold ordered_key. simpl probability.
      destruct (pitta doshaScores); try contradiction; reflexivity.
  - intros Hc l' Hl'. apply gt_upper in Hc.
    apply (inv_if_push 5 6); [|idx_bounds|lia|].
    apply (inv_if_push 4 5); [assumption|idx_bounds|lia|].
    + intros Hb. apply andb_true_iff in Hb. destruct Hb as [Hb _].
      apply gt_upper in Hb.
      unfold ordered_key. simpl probability.
      destruct (kapha doshaScores), (bmi_of params); try contradiction; reflexivity.
    + intros _. unfold ordered_key. simpl probability.
      destruct (kapha doshaScores); try contradiction; reflexivity.
Qed.

(** C5: for every input the list returned by [predictDiseases] holds the
    findings pushed by the rules (which are pushed in rule order), sorted
    in descending order of probability, findings of equal probability
    standing in the order of the rules that produced them. *)
Theorem predictDiseases_sorted (doshaScores : DoshaScores)
    (lifestyle : LifestyleFactors) (params : HealthParameters) :
  let pushed := predictions_of doshaScores lifestyle params in
  let out := predictDiseases doshaScores lifestyle params in
  StronglySorted (idx_lt rule_index) pushed /\
  Permutation pushed out /\
  StronglySorted (fun a b => JS.le b.(probability) a.(probability)) out /\
  StronglySorted (ranked_before probability rule_index) out.
Proof.
  intros pushed out.
  destruct (predictions_of_inv doshaScores lifestyle params) as [Hs Hall].
  assert (Hord : Forall (ordered_key probability) pushed).
  { eapply Forall_impl; [|exact Hall]. now intros a [_ Ho]. }
  split; [exact Hs|]. split; [apply (sort_perm probability)|].
  split.
  - apply (sorted_desc probability rule_index).
    now apply (sort_sorted probability rule_index).
  - now apply (sort_ranked probability rule_index).
Qed.

(** C7: the rule formulas do not clamp probabilities to [0,1]: for the
    valid [example_params], whose profile has vata 100 (above 50) and
    stressLevel high, and a valid lifestyle with 5 hours of sleep (below 6),
    [predictDiseases] returns the finding Anxiety & Sleep Disorders with
    probability 0.65 + 100/200, strictly greater than 1. *)
Theorem probability_exceeds_one :
  exists (params : HealthParameters) (lifestyle : LifestyleFactors)
         (d : DiseasePrediction),
    let doshaScores := calculateDoshaProfile params in
    valid_params params = true /\
    valid_lifestyle lifestyle = true /\
    JS.gt doshaScores.(vata) (JS.of_Z 50) = true /\
    params.(stressLevel) = "high" /\
    JS.lt lifestyle.(sleepHours) (JS.of_Z 6) = true /\
    In d (predictDiseases doshaScores lifestyle params) /\
    d.(disease) = "Anxiety & Sleep Disorders" /\
    JS.eqv d.(probability) (JS.Fin 1.15) /\
    JS.gt d.(probability) (JS.of_Z 1) = true.
Proof.
  exists example_params, short_sleeper.
  eexists. cbv zeta.
  repeat (split; [reflexivity|]).
  split; [vm_compute; left; reflexivity|].
  repeat split; vm_compute; reflexivity.
Qed.

(** ** calculateLifestyleRisk *)

Lemma positive_not_NaN (a : number) :
  positive_risk a = true -> JS.is_NaN a = false.
Proof. destruct a; simpl; auto. Qed.

Lemma add_nonneg (a b : number) :
  nonneg a -> positive_risk b = true -> nonneg (JS.add a b).
Proof.
  unfold nonneg, positive_risk, JS.gt, JS.of_Z.
  destruct a, b; simpl; try discriminate; auto.
  rewrite Qlt_bool_iff. unfold inject_Z. intros H1 H2. lra.
Qed.

Lemma min_100_range (t : number) :
  nonneg t ->
  JS.le (JS.of_Z 0) (JS.min (JS.of_Z 100) t)
  /\ JS.le (JS.min (JS.of_Z 100) t) (JS.of_Z 100).
Proof.
  unfold nonneg, JS.of_Z.
  destruct t as [x| | |]; simpl; try contradiction.
  - intros Hx. destruct (JS.Qlt_bool x (inject_Z 100)) eqn:E; simpl.
    + apply Qlt_bool_iff in E. split; lra.
    + unfold inject_Z. split; lra.
  - intros _. unfold inject_Z. split; lra.
Qed.

Lemma total_if_record (c : bool) (f : RiskFactor) (st : risk_state) :
  nonneg (snd st) -> (c = true -> positive_risk f.(score) = true) ->
  nonneg (snd (if_then c (record_risk f) st)).
Proof.
  intros Hst Hc. unfold if_then. destruct c; [|assumption].
  destruct st as [l t]. simpl. apply add_nonneg; auto.
Qed.

Lemma totalRisk_nonneg (lifestyle : LifestyleFactors)
    (params : HealthParameters) :
  nonneg (snd (risk_state_of lifestyle params)).
Proof.
  unfold risk_state_of. cbv zeta.
  repeat (apply total_if_record; [|intros H; exact H]).
  unfold nonneg, JS.of_Z, inject_Z. simpl. lra.
Qed.

(** C6: for every input the overall risk lies in [0,100]; for the example
    lifestyle (no sleep, exercise rarely, no stress management, 24 hours
    of screen time, low water intake, irregular meals) with high stress the
    raw sum of the terms is 190 and the overall risk is exactly 100. *)
Theorem overallRisk_in_range :
  (forall lifestyle params,
     let r := calculateLifestyleRisk lifestyle params in
     JS.le (JS.of_Z 0) r.(overallRisk) /\ JS.le r.(overallRisk) (JS.of_Z 100))
  /\
  (forall d minutes a w h bt dg sp en sk ef,
     let lifestyle := worst_lifestyle d minutes in
     let params := mkHealthParameters a w h bt dg sp en sk "high" ef in
     JS.eqv (snd (risk_state_of lifestyle params)) (JS.of_Z 190) /\
     JS.gt (snd (risk_state_of lifestyle params)) (JS.of_Z 100) = true /\
     (calculateLifestyleRisk lifestyle params).(overallRisk) = JS.of_Z 100).
Proof.
  split.
  - intros lifestyle params r. subst r. unfold calculateLifestyleRisk.
    pose proof (totalRisk_nonneg lifestyle params) as H.
    destruct (risk_state_of lifestyle params) as [l t]. simpl in *.
    now apply min_100_range.
  - intros. repeat split; vm_compute; reflexivity.
Qed.

(** The array before the sort holds the candidates with a positive score,
    in evaluation order. *)
Lemma riskFactors_pushed (lifestyle : LifestyleFactors)
    (params : HealthParameters) :
  fst (risk_state_of lifestyle params)
  = filter positive_score (candidate_factors lifestyle params).
Proof.
  unfold risk_state_of, candidate_factors, contribution_terms, positive_score.
  cbv zeta. unfold if_then. simpl map. simpl filter. simpl score.
  destruct (positive_risk (sleepRisk lifestyle));
  destruct (positive_risk (exerciseRisk lifestyle));
  destruct (positive_risk (stressRisk lifestyle params));
  destruct (positive_risk (screenRisk lifestyle));
  destruct (positive_risk (waterRisk lifestyle));
  destruct (positive_risk (mealRisk lifestyle));
  reflexivity.
Qed.

Lemma candidate_factors_in_order (lifestyle : LifestyleFactors)
    (params : HealthParameters) :
  StronglySorted (idx_lt term_index) (candidate_factors lifestyle params).
Proof.
  unfold candidate_factors, contribution_terms. simpl map.
  repeat (constructor; [|repeat constructor; unfold idx_lt; vm_compute; lia]).
  constructor.
Qed.

(** C9, as stated, fails: the impact string of a factor is not static.
    With 6 hours of sleep the factor Inadequate Sleep (score 10) is
    reported with impact Moderate impact, with 4 hours (score 30) with
    High impact on health. *)
Lemma impact_not_static :
  valid_lifestyle (sleeps 6) = true /\ valid_lifestyle (sleeps 4) = true /\
  map (fun r => (r.(factor), r.(impact)))
      (calculateLifestyleRisk (sleeps 6) example_params).(riskFactors)
    = [("Low Physical Activity", "High impact on metabolism");
       ("Inadequate Sleep", "Moderate impact")] /\
  map (fun r => (r.(factor), r.(impact)))
      (calculateLifestyleRisk (sleeps 4) example_params).(riskFactors)
    = [("Inadequate Sleep", "High impact on health");
       ("Low Physical Activity", "High impact on metabolism")] /\
  ~ impact_is_static.
Proof.
  repeat (split; [vm_compute; reflexivity|]).
  intros [table H].
  pose proof (H (sleeps 6) example_params
                {| factor := "Inadequate Sleep"; impact := "Moderate impact";
                   score := JS.Fin ((7 + - 6) * 10) |}) as H6.
  pose proof (H (sleeps 4) example_params
                {| factor := "Inadequate Sleep";
                   impact := "High impact on health";
                   score := JS.Fin ((7 + - 4) * 10) |}) as H4.
  simpl factor in *. simpl impact in *.
  assert (E6 : "Moderate impact" = table "Inadequate Sleep")
    by (apply H6; vm_compute; right; left; reflexivity).
  assert (E4 : "High impact on health" = table "Inadequate Sleep")
    by (apply H4; vm_compute; left; reflexivity).
  rewrite <- E6 in E4. discriminate.
Qed.

(** C9, amended: for every input the returned factor list holds exactly
    the contribution terms whose value is strictly positive, sorted in
    descending order of score with ties in evaluation order; each factor
    carries the impact string of its term, which is fixed for stress
    management, screen time, water intake and meal timing, and for sleep
    and physical activity is the High impact string when the score exceeds
    20 and Moderate impact otherwise. *)
Theorem riskFactors_positive_sorted (lifestyle : LifestyleFactors)
    (params : HealthParameters) :
  let out := (calculateLifestyleRisk lifestyle params).(riskFactors) in
  Permutation
    (filter positive_score (candidate_factors lifestyle params)) out /\
  (forall r, In r out <->
     exists name value,
       In (name, value) (contribution_terms lifestyle params) /\
       JS.gt value (JS.of_Z 0) = true /\
       r = {| factor := name; impact := impact_of name value;
              score := value |}) /\
  StronglySorted (fun a b => JS.le b.(score) a.(score)) out /\
  StronglySorted (ranked_before score term_index) out.
Proof.
  intros out. subst out. unfold calculateLifestyleRisk.
  pose proof (riskFactors_pushed lifestyle params) as Hp.
  destruct (risk_state_of lifestyle params) as [l t]. simpl in Hp. subst l.
  simpl riskFactors.
  set (pushed := filter positive_score (candidate_factors lifestyle params)).
  assert (Hperm : Permutation pushed (sort by_score_desc pushed))
    by apply (sort_perm score).
  assert (Hord : Forall (ordered_key score) pushed).
  { apply Forall_forall. intros r Hr. apply filter_In in Hr.
    apply positive_not_NaN, Hr. }
  assert (Hs : StronglySorted (idx_lt term_index) pushed)
    by apply filter_sorted, candidate_factors_in_order.
  split; [exact Hperm|]. split; [|split].
  - intros r. split.
    + intros Hr. apply (Permutation_in _ (Permutation_sym Hperm)) in Hr.
      apply filter_In in Hr. destruct Hr as [Hin Hpos].
      unfold candidate_factors in Hin. apply in_map_iff in Hin.
      destruct Hin as ([name value] & <- & Hin).
      exists name, value. auto.
    + intros (name & value & Hin & Hpos & ->).
      apply (Permutation_in _ Hperm). apply filter_In. split; [|exact Hpos].
      unfold candidate_factors. apply in_map_iff.
      exists (name, value). auto.
  - apply (sorted_desc score term_index).
    now apply (sort_sorted score term_index).
  - now apply (sort_ranked score term_index).
Qed.

(** ** getDominantDosha *)

Ltac reduce_dominant :=
  cbv beta iota zeta delta
    [getDominantDosha max3 JS.max JS.lt JS.strict_eq JS.le JS.eqv
     is_max score_of vata pitta kapha].

Ltac split_comparisons :=
  repeat (reduce_dominant;
    match goal with
    | |- context [JS.Qlt_bool ?a ?b] =>
        let E := fresh "E" in
        destruct (JS.Qlt_bool a b) eqn:E;
        [apply Qlt_bool_iff in E | apply Qlt_bool_false in E]
    | |- context [Qeq_bool ?a ?b] =>
        let E := fresh "E" in
        destruct (Qeq_bool a b) eqn:E;
        [apply Qeq_bool_eq in E | apply Qeq_bool_neq in E]
    end).

(** For scores that are numbers (not NaN) the label returned is that of a
    score equal to the maximum of the three, with Vata before Pitta before
    Kapha on ties. *)
Lemma dominant_of_numbers (s : DoshaScores) :
  no_NaN s ->
  is_max s (score_of s (getDominantDosha s)) /\
  (is_max s s.(vata) -> getDominantDosha s = "Vata") /\
  (~ is_max s s.(vata) -> is_max s s.(pitta) -> getDominantDosha s = "Pitta") /\
  (~ is_max s s.(vata) -> ~ is_max s s.(pitta) ->
     getDominantDosha s = "Kapha" /\ is_max s s.(kapha)) /\
  (JS.eqv s.(vata) s.(pitta) -> JS.eqv s.(pitta) s.(kapha) ->
     getDominantDosha s = "Vata") /\
  (JS.eqv s.(pitta) s.(kapha) -> JS.lt s.(vata) s.(pitta) = true ->
     getDominantDosha s = "Pitta").
Proof.
  destruct s as [v p k]. unfold no_NaN. simpl vata; simpl pitta; simpl kapha.
  intros (Hv & Hp & Hk).
  destruct v as [x| | |], p as [y| | |], k as [z| | |];
    try discriminate Hv; try discriminate Hp; try discriminate Hk;
    clear Hv Hp Hk.
  all: split_comparisons.
  all: reduce_dominant.
  all: repeat split; intros.
  all: cbv beta iota zeta delta
         [is_max JS.le JS.eqv JS.lt vata pitta kapha] in *.
  all: try reflexivity; try tauto; try lra; try discriminate.
  all: try (exfalso; tauto).
  all: repeat match goal with
       | |- context [streq ?a ?b] =>
           let v := eval vm_compute in (streq a b) in
           change (streq a b) with v
       end.
  all: cbv beta iota; try exact I; lra.
Qed.

(** With a NaN score the maximum is NaN, no score is equal to it, and the
    answer is Kapha whatever the scores. *)
Lemma getDominantDosha_NaN (s : DoshaScores) :
  some_NaN s -> getDominantDosha s = "Kapha".
Proof.
  unfold some_NaN.
  destruct s as [v p k]. simpl.
  destruct v, p, k; simpl; intros [H | [H | H]]; try discriminate H.
  all: unfold getDominantDosha, max3, JS.max, JS.lt; simpl.
  all: repeat match goal with
       | |- context [JS.Qlt_bool ?a ?b] => destruct (JS.Qlt_bool a b)
       end.
  all: reflexivity.
Qed.

(** C10, as stated, fails: the scores NaN, 50, 10 are a [DoshaScores]
    value, [getDominantDosha] returns Kapha for them, and kapha (10) is
    below pitta (50): the label returned is not that of a maximum.  So
    not every input gets the label of a score that no other score
    exceeds, nor of a score that is at least each of the three. *)
Lemma dominant_of_NaN_is_not_a_maximum :
  getDominantDosha NaN_vata_scores = "Kapha" /\
  score_of NaN_vata_scores (getDominantDosha NaN_vata_scores) = JS.of_Z 10 /\
  JS.lt (score_of NaN_vata_scores (getDominantDosha NaN_vata_scores))
        NaN_vata_scores.(pitta) = true /\
  ~ (forall s, not_exceeded s (score_of s (getDominantDosha s))) /\
  ~ (forall s, is_max s (score_of s (getDominantDosha s))).
Proof.
  split; [reflexivity|]. split; [reflexivity|]. split; [reflexivity|].
  split; intros H.
  - destruct (H NaN_vata_scores) as (_ & Hp & _). discriminate Hp.
  - destruct (H NaN_vata_scores) as (Hv & _). exact Hv.
Qed.

(** C10, amended: for every [DoshaScores] input whose three scores are
    numbers (none is NaN), [getDominantDosha] returns the label of a score
    equal to the maximum of the three, resolving ties by Vata over Pitta
    over Kapha: Vata whenever vata is a maximum, Pitta whenever pitta is a
    maximum and vata is not, Kapha otherwise (three equal scores give
    Vata; pitta and kapha tied above vata give Pitta).  For an input with
    a NaN score it returns Kapha, whatever the scores. *)
Theorem getDominantDosha_max (s : DoshaScores) :
  (no_NaN s ->
   is_max s (score_of s (getDominantDosha s)) /\
   (is_max s s.(vata) -> getDominantDosha s = "Vata") /\
   (~ is_max s s.(vata) -> is_max s s.(pitta) ->
      getDominantDosha s = "Pitta") /\
   (~ is_max s s.(vata) -> ~ is_max s s.(pitta) ->
      getDominantDosha s = "Kapha" /\ is_max s s.(kapha)) /\
   (JS.eqv s.(vata) s.(pitta) -> JS.eqv s.(pitta) s.(kapha) ->
      getDominantDosha s = "Vata") /\
   (JS.eqv s.(pitta) s.(kapha) -> JS.lt s.(vata) s.(pitta) = true ->
      getDominantDosha s = "Pitta")) /\
  (some_NaN s -> getDominantDosha s = "Kapha").
Proof.
  split; [apply dominant_of_numbers | apply getDominantDosha_NaN].
Qed.

Lemma getDominantDosha_max_witness :
  no_NaN mixed_scores /\ some_NaN NaN_vata_scores /\
  (is_max mixed_scores (score_of mixed_scores (getDominantDosha mixed_scores)) /\
   (is_max mixed_scores mixed_scores.(vata) -> getDominantDosha mixed_scores = "Vata") /\
   (~ is_max mixed_scores mixed_scores.(vata) -> is_max mixed_scores mixed_scores.(pitta) -> getDominantDosha mixed_scores = "Pitta") /\
   (~ is_max mixed_scores mixed_scores.(vata) -> ~ is_max mixed_scores mixed_scores.(pitta) ->
      getDominantDosha mixed_scores = "Kapha" /\ is_max mixed_scores mixed_scores.(kapha)) /\
   (JS.eqv mixed_scores.(vata) mixed_scores.(pitta) -> JS.eqv mixed_scores.(pitta) mixed_scores.(kapha) ->
      getDominantDosha mixed_scores = "Vata") /\
   (JS.eqv mixed_scores.(pitta) mixed_scores.(kapha) -> JS.lt mixed_scores.(vata) mixed_scores.(pitta) = true ->
      getDominantDosha mixed_scores = "Pitta")) /\
  getDominantDosha NaN_vata_scores = "Kapha".
Proof.
  split; [repeat split|]. split; [left; reflexivity|]. split.
  - apply (proj1 (getDominantDosha_max mixed_scores)). repeat split.
  - apply (proj2 (getDominantDosha_max NaN_vata_scores)). left. reflexivity.
Defined.

(** ** Input validation *)

(** C2, as stated, fails: no function rejects invalid input.  On
    [garbage_params], whose enumerated values are all outside their sets,
    [calculateDoshaProfile] returns NaN three times and the other two
    functions return a result as well; with a height of zero
    [predictDiseases] returns a finding of infinite probability. *)
Lemma invalid_input_not_rejected :
  invalid_input garbage_params = true /\
  run_calculateDoshaProfile garbage_params = Returns NaN_scores /\
  run_predictDiseases NaN_scores sedentary_lifestyle garbage_params
    = Returns [] /\
  (exists r, run_calculateLifestyleRisk sedentary_lifestyle garbage_params
             = Returns r /\ r.(overallRisk) = JS.of_Z 30) /\
  invalid_input zero_height_params = true /\
  (exists d,
     run_predictDiseases (calculateDoshaProfile zero_height_params)
       sedentary_lifestyle zero_height_params = Returns [d] /\
     d.(disease) = "Metabolic Syndrome Risk" /\ d.(probability) = JS.PInf) /\
  ~ (forall doshaScores lifestyle params,
       invalid_input params = true ->
       rejects (run_calculateDoshaProfile params) /\
       rejects (run_predictDiseases doshaScores lifestyle params) /\
       rejects (run_calculateLifestyleRisk lifestyle params)).
Proof.
  split; [reflexivity|]. split; [reflexivity|]. split; [reflexivity|].
  split; [eexists; split; [reflexivity | vm_compute; reflexivity]|].
  split; [reflexivity|].
  split; [eexists; split; [vm_compute; reflexivity | split; reflexivity]|].
  intros H.
  destruct (H NaN_scores sedentary_lifestyle garbage_params eq_refl) as [H1 _].
  discriminate H1.
Qed.

Lemma not_mem_3 (s a b c : string) :
  negb (mem s [a; b; c]) = true ->
  String.eqb s a = false /\ String.eqb s b = false /\ String.eqb s c = false.
Proof.
  unfold mem. simpl. rewrite negb_true_iff, !orb_false_iff. tauto.
Qed.

Lemma scored_out_of_domain_NaN (p : HealthParameters) :
  scored_out_of_domain p = true -> calculateDoshaProfile p = NaN_scores.
Proof.
  unfold scored_out_of_domain. rewrite !andb_true_iff.
  intros [[[[[Hbt Hdg] Hsp] Hen] Hsk] Hst].
  apply not_mem_3 in Hbt, Hdg, Hsp, Hen, Hsk, Hst.
  destruct Hbt as (B1 & B2 & B3), Hdg as (D1 & D2 & D3),
    Hsp as (S1 & S2 & S3), Hen as (E1 & E2 & E3),
    Hsk as (K1 & K2 & K3), Hst as (T1 & T2 & T3).
  unfold calculateDoshaProfile, accumulators.
  rewrite B1, B2, B3, D1, D2, D3, S1, S2, S3, E1, E2, E3, K1, K2, K3, T1, T2, T3.
  reflexivity.
Qed.

(* ------------------------------------------------------------------ *)
(** * Further properties of the analytics module and its callers *)

(** ** The dominant dosha of a computed profile *)

Lemma mem_true_iff (s : string) (l : list string) : mem s l = true <-> In s l.
Proof.
  split; [apply mem_In|].
  intros H. unfold mem. apply existsb_exists. exists s.
  split; [assumption | apply String.eqb_refl].
Qed.

Lemma mem_false_iff (s : string) (l : list string) :
  mem s l = false <-> ~ In s l.
Proof.
  rewrite <- mem_true_iff. destruct (mem s l); split; congruence.
Qed.

Lemma dominant_check_all :
  forallb (fun q => String.eqb (getDominantDosha (calculateDoshaProfile q))
                      (largest_accumulator q))
          all_scored_combinations = true.
Proof. vm_compute. reflexivity. Qed.

(** X1: for every valid input the dominant dosha of the computed profile
    is the label of the largest accumulator (Vata before Pitta before Kapha
    on ties): rounding to percentages never changes which dosha
    dominates. *)
Theorem dominant_of_computed_profile (params : HealthParameters) :
  valid_params params = true ->
  getDominantDosha (calculateDoshaProfile params) = largest_accumulator params.
Proof.
  intros Hv.
  pose proof (forall_scored _ dominant_check_all params (valid_enums params Hv))
    as H.
  cbv beta in H. apply String.eqb_eq in H. exact H.
Qed.

Lemma dominant_of_computed_profile_witness :
  valid_params rounding_example = true /\
  getDominantDosha (calculateDoshaProfile rounding_example)
  = largest_accumulator rounding_example.
Proof.
  split; [reflexivity|].
  apply (dominant_of_computed_profile rounding_example). reflexivity.
Defined.

(** ** getDoshaDescription *)

Lemma dominant_label (s : DoshaScores) :
  In (getDominantDosha s) ["Vata"; "Pitta"; "Kapha"].
Proof.
  unfold getDominantDosha. cbv zeta.
  destruct (JS.strict_eq (vata s) _); [simpl; auto|].
  destruct (JS.strict_eq (pitta s) _); simpl; auto.
Qed.

(** X2: whatever the scores (NaN included), the description that the
    dashboards show for the dominant dosha is the non-empty text stored
    under that label: the empty-string fallback of [getDoshaDescription]
    is never reached from [getDominantDosha]. *)
Theorem description_of_dominant (scores : DoshaScores) :
  exists text : string,
    getDoshaDescription (getDominantDosha scores) = StringValue text /\
    assoc (getDominantDosha scores) descriptions = Some text /\
    text <> "".
Proof.
  destruct (dominant_label scores) as [<-|[<-|[<-|[]]]];
    eexists; (split; [reflexivity|]); (split; [reflexivity|]); discriminate.
Qed.

(** X3: [getDoshaDescription] is case-sensitive and has three keys: it
    returns a non-empty text exactly for Vata, Pitta and Kapha; for a name
    inherited from [Object.prototype] (such as constructor or toString) the
    lookup yields the inherited value, which is not a string; for every
    other label it returns the empty string. *)
Theorem getDoshaDescription_cases (dosha : string) :
  (In dosha ["Vata"; "Pitta"; "Kapha"] ->
     exists text, getDoshaDescription dosha = StringValue text /\ text <> "") /\
  (In dosha Object_prototype_properties ->
     getDoshaDescription dosha = InheritedValue) /\
  (~ In dosha ["Vata"; "Pitta"; "Kapha"] ->
   ~ In dosha Object_prototype_properties ->
     getDoshaDescription dosha = StringValue "") /\
  getDoshaDescription "vata" = StringValue "".
Proof.
  split; [|split; [|split; [|reflexivity]]].
  - intros [<-|[<-|[<-|[]]]]; eexists; (split; [reflexivity | discriminate]).
  - intros H. simpl in H.
    repeat (destruct H as [<-|H]; [reflexivity|]). destruct H.
  - intros Hk Hp. unfold getDoshaDescription, get_property.
    assert (E : assoc dosha descriptions = None).
    { unfold descriptions, assoc.
      destruct (String.eqb dosha "Vata") eqn:E1;
        [apply String.eqb_eq in E1; subst; exfalso; apply Hk; simpl; auto|].
      destruct (String.eqb dosha "Pitta") eqn:E2;
        [apply String.eqb_eq in E2; subst; exfalso; apply Hk; simpl; auto|].
      destruct (String.eqb dosha "Kapha") eqn:E3;
        [apply String.eqb_eq in E3; subst; exfalso; apply Hk; simpl; auto|].
      reflexivity. }
    rewrite E. apply mem_false_iff in Hp. rewrite Hp. reflexivity.
Qed.

(** ** Invariants of the findings *)

Lemma Forall_if_push {A : Type} (P : A -> Prop) (c : bool) (x : A)
    (l : list A) :
  Forall P l -> (c = true -> P x) -> Forall P (if_then c (push x) l).
Proof.
  intros Hl Hx. unfold if_then, push. destruct c; [|assumption].
  apply Forall_app. split; [assumption|]. constructor; auto.
Qed.

Lemma Forall_if_block {A : Type} (P : A -> Prop) (c : bool)
    (body : list A -> list A) (l : list A) :
  Forall P l -> (c = true -> forall l', Forall P l' -> Forall P (body l')) ->
  Forall P (if_then c body l).
Proof.
  intros Hl Hb. unfold if_then. destruct c; [now apply Hb | assumption].
Qed.

(** Reduces [Forall P (predictions_of ...)] to one goal per rule, with the
    guards of the rule as hypotheses. *)
Ltac each_rule :=
  unfold predictions_of; cbv zeta;
  repeat first
    [ assumption
    | apply Forall_nil
    | apply Forall_if_push; [|intros ?]
    | apply Forall_if_block; [|intros ? ? ?] ];
  cbv beta.

Lemma predictions_all (P : DiseasePrediction -> Prop)
    (doshaScores : DoshaScores) (lifestyle : LifestyleFactors)
    (params : HealthParameters) :
  Forall P (predictions_of doshaScores lifestyle params) ->
  Forall P (predictDiseases doshaScores lifestyle params).
Proof.
  intros H. unfold predictDiseases.
  apply (Permutation_Forall (sort_perm probability _)). exact H.
Qed.

Lemma severities_pushed (doshaScores : DoshaScores)
    (lifestyle : LifestyleFactors) (params : HealthParameters) :
  Forall (fun d => In d.(severity) severity_domain)
         (predictions_of doshaScores lifestyle params).
Proof.
  each_rule.
  all: simpl severity; unfold severity_domain;
       repeat match goal with
              | |- context [if ?c then _ else _] => destruct c
              end; simpl; auto.
Qed.

(** X4: every finding returned by [predictDiseases] has one of the three
    declared severities, so neither dashboard ever falls back to the grey
    default class of [getSeverityColor]. *)
Theorem severity_is_declared (doshaScores : DoshaScores)
    (lifestyle : LifestyleFactors) (params : HealthParameters) :
  Forall (fun d =>
            In d.(severity) severity_domain /\
            HealthDashboard.getSeverityColor d.(severity)
              <> "bg-gray-100 text-gray-800" /\
            EnhancedHealthDashboard.getSeverityColor d.(severity)
              <> "bg-gray-100 text-gray-800 border-gray-300")
         (predictDiseases doshaScores lifestyle params).
Proof.
  apply predictions_all.
  eapply Forall_impl; [|apply severities_pushed].
  intros d H. split; [exact H|].
  simpl in H. destruct H as [<-|[<-|[<-|[]]]]; split; discriminate.
Qed.

Lemma div_Fin_Z (q : Q) (k : Z) :
  k <> 0 -> JS.div (JS.Fin q) (JS.of_Z k) = JS.Fin (q / inject_Z k).
Proof.
  intros Hk. unfold JS.div, JS.of_Z. now rewrite Qeq_bool_inject_Z_0.
Qed.

Lemma gt_Fin (q : Q) (k : Z) :
  JS.gt (JS.Fin q) (JS.of_Z k) = true -> (inject_Z k < q)%Q.
Proof. unfold JS.gt, JS.lt, JS.of_Z. apply Qlt_bool_iff. Qed.

(** A probability [base + x / k] with [x] above a threshold [t]. *)
Lemma linear_probability_bound (x : number) (base : Q) (k t : Z) :
  JS.gt x (JS.of_Z t) = true -> 0 < k ->
  (1 # 2 <= base + inject_Z t / inject_Z k)%Q ->
  JS.le (JS.Fin 0.5) (JS.add (JS.Fin base) (JS.div x (JS.of_Z k))).
Proof.
  intros Hx Hk Hb.
  assert (Hk' : (0 < inject_Z k)%Q)
    by (change 0%Q with (inject_Z 0); rewrite <- Zlt_Qlt; exact Hk).
  destruct x as [q| | |]; try discriminate Hx.
  - apply gt_Fin in Hx. rewrite div_Fin_Z by lia. simpl.
    unfold Qdiv in *.
    assert (Hc : (0 < / inject_Z k)%Q) by now apply Qinv_lt_0_compat.
    assert (Hm : (0 <= (q - inject_Z t) * / inject_Z k)%Q)
      by (apply Qmult_le_0_compat; lra).
    lra.
  - assert (E : Qle_bool 0 (inject_Z k) = true)
      by (apply Qle_bool_iff; lra).
    unfold JS.div, JS.of_Z. rewrite E. exact I.
Qed.

Lemma probabilities_pushed (doshaScores : DoshaScores)
    (lifestyle : LifestyleFactors) (params : HealthParameters) :
  Forall (fun d => JS.le (JS.Fin 0.5) d.(probability))
         (predictions_of doshaScores lifestyle params).
Proof.
  each_rule.
  all: cbn [probability].
  all: try (eapply linear_probability_bound; [eassumption|lia|
              unfold Qle; simpl; lia]).
  all: try (unfold JS.le, Qle; simpl; lia).
  (* Metabolic Syndrome Risk: base + kapha / 200 + (bmi - 25) / 50 *)
  match goal with
  | H : (JS.gt (bmi_of params) _ && _)%bool = true |- _ =>
      apply andb_true_iff in H; destruct H as [Hbmi _]
  end.
  match goal with
  | H : JS.gt (kapha doshaScores) _ = true |- _ => rename H into Hk
  end.
  destruct (kapha doshaScores) as [k| | |]; try discriminate Hk;
    destruct (bmi_of params) as [b| | |]; try discriminate Hbmi;
    try exact I.
  apply gt_Fin in Hk, Hbmi.
  rewrite div_Fin_Z by lia. unfold JS.sub, JS.neg, JS.of_Z.
  cbn [JS.add].
  fold (JS.of_Z 50). rewrite div_Fin_Z by lia. cbn [JS.add JS.le].
  unfold Qdiv, inject_Z in *.
  assert (H1 : (0 <= (k - (40 # 1)) * / (200 # 1))%Q)
    by (apply Qmult_le_0_compat; [lra | unfold Qle; simpl; lia]).
  assert (H2 : (0 <= (b - (25 # 1)) * / (50 # 1))%Q)
    by (apply Qmult_le_0_compat; [lra | unfold Qle; simpl; lia]).
  change (/ (200 # 1))%Q with (1 # 200)%Q in *.
  change (/ (50 # 1))%Q with (1 # 50)%Q in *.
  lra.
Qed.

Lemma in_order_NoDup (l : list DiseasePrediction) :
  StronglySorted (idx_lt rule_index) l -> NoDup (map disease l).
Proof.
  induction 1 as [|a l Hs IH Hall]; simpl; constructor; [|assumption].
  intros Hin. apply in_map_iff in Hin. destruct Hin as (b & Eb & Hb).
  rewrite Forall_forall in Hall. specialize (Hall b Hb).
  unfold idx_lt, rule_index in Hall. rewrite Eb in Hall. lia.
Qed.

Lemma in_order_length (n : nat) (l : list DiseasePrediction) :
  predictions_inv n l -> (length l <= n)%nat.
Proof.
  intros [Hs Hall].
  assert (H : match l with
              | [] => True
              | a :: _ => (length l + rule_index a <= n)%nat
              end).
  { induction Hs as [|a l Hs IH Ha]; [exact I|].
    inversion Hall as [|? ? [Han _] Hall']; subst.
    destruct l as [|b l']; [simpl; lia|].
    specialize (IH Hall'). inversion Ha as [|? ? Hab _]; subst.
    unfold idx_lt in Hab. simpl in *. lia. }
  destruct l; simpl in *; lia.
Qed.

Lemma round_percent_bound (p : number) :
  JS.le (JS.Fin 0.5) p ->
  JS.le (JS.of_Z 50) (JS.round (JS.mul p (JS.of_Z 100))).
Proof.
  destruct p as [q| | |]; try contradiction; [|intros _; exact I].
  unfold JS.round, JS.mul, JS.of_Z. cbn [JS.le]. intros Hq.
  rewrite <- Zle_Qle.
  change 50 with (Qfloor (inject_Z 50)).
  apply Qfloor_resp_le. unfold inject_Z in *. lra.
Qed.

(** X5: [predictDiseases] returns at most ten findings with pairwise
    distinct disease names; no finding has a probability below 0.5, so the
    percentage [Math.round(probability * 100)] displayed by the dashboards
    and the reports is never below 50. *)
Theorem findings_distinct_and_likely (doshaScores : DoshaScores)
    (lifestyle : LifestyleFactors) (params : HealthParameters) :
  let out := predictDiseases doshaScores lifestyle params in
  (length out <= 10)%nat /\
  NoDup (map disease out) /\
  Forall (fun d =>
            JS.le (JS.Fin 0.5) d.(probability) /\
            JS.le (JS.of_Z 50) (EnhancedHealthDashboard.displayed_percent d))
         out.
Proof.
  intros out. subst out.
  pose proof (predictions_of_inv doshaScores lifestyle params) as Hinv.
  pose proof (sort_perm probability
                (predictions_of doshaScores lifestyle params)) as Hperm.
  change (sort (by_key_desc probability)
            (predictions_of doshaScores lifestyle params))
    with (predictDiseases doshaScores lifestyle params) in Hperm.
  split; [|split].
  - rewrite <- (Permutation_length Hperm). now apply in_order_length.
  - apply (Permutation_NoDup (Permutation_map disease Hperm)).
    apply in_order_NoDup, Hinv.
  - apply predictions_all.
    eapply Forall_impl; [|apply probabilities_pushed].
    intros d H. split; [exact H | now apply round_percent_bound].
Qed.

(** ** Which rule fires when *)

Lemma if_then_false {S : Type} (c : bool) (body : S -> S) (s : S) :
  c = false -> if_then c body s = s.
Proof. intros ->. reflexivity. Qed.

(** X6: [predictDiseases] returns the empty list when no score exceeds
    40, the stress level is not high, at least 6 hours are slept and the
    homeopathic guard (variable energy with vata above 35) fails. *)
Theorem no_guard_no_finding (doshaScores : DoshaScores)
    (lifestyle : LifestyleFactors) (params : HealthParameters) :
  JS.gt doshaScores.(vata) (JS.of_Z 40) = false ->
  JS.gt doshaScores.(pitta) (JS.of_Z 40) = false ->
  JS.gt doshaScores.(kapha) (JS.of_Z 40) = false ->
  params.(stressLevel) <> "high" ->
  JS.lt lifestyle.(sleepHours) (JS.of_Z 6) = false ->
  (streq params.(energyLevel) "variable"
   && JS.gt doshaScores.(vata) (JS.of_Z 35))%bool = false ->
  predictDiseases doshaScores lifestyle params = [].
Proof.
  intros Hv Hp Hk Hs Hsleep Hhom.
  assert (Hs' : streq (stressLevel params) "high" = false)
    by (apply String.eqb_neq; exact Hs).
  unfold predictDiseases.
  assert (E : predictions_of doshaScores lifestyle params = []).
  { unfold predictions_of. cbv zeta.
    rewrite (if_then_false _ _ _ Hhom).
    rewrite if_then_false by (rewrite Hs'; apply andb_false_r).
    rewrite (if_then_false _ _ _ Hsleep).
    rewrite if_then_false by (rewrite Hs'; apply andb_false_r).
    rewrite (if_then_false _ _ _ Hk).
    rewrite (if_then_false _ _ _ Hp).
    rewrite (if_then_false _ _ _ Hv).
    reflexivity. }
  rewrite E. reflexivity.
Qed.

Lemma no_guard_no_finding_witness :
  (JS.gt balanced_scores.(vata) (JS.of_Z 40) = false /\
   JS.gt balanced_scores.(pitta) (JS.of_Z 40) = false /\
   JS.gt balanced_scores.(kapha) (JS.of_Z 40) = false /\
   calm_params.(stressLevel) <> "high" /\
   JS.lt rested_lifestyle.(sleepHours) (JS.of_Z 6) = false /\
   (streq calm_params.(energyLevel) "variable"
    && JS.gt balanced_scores.(vata) (JS.of_Z 35))%bool = false) /\
  predictDiseases balanced_scores rested_lifestyle calm_params = [].
Proof.
  split; [repeat split; try reflexivity; discriminate|].
  apply (no_guard_no_finding balanced_scores rested_lifestyle calm_params);
    try reflexivity; discriminate.
Defined.

Lemma In_if_push_new {A : Type} (c : bool) (x : A) (l : list A) :
  c = true -> In x (if_then c (push x) l).
Proof.
  intros ->. unfold if_then, push. apply in_or_app. right. now left.
Qed.

Lemma In_if_push_old {A : Type} (c : bool) (x d : A) (l : list A) :
  In d l -> In d (if_then c (push x) l).
Proof.
  intros H. unfold if_then, push. destruct c; [|assumption].
  apply in_or_app. now left.
Qed.

Lemma in_predictDiseases (d : DiseasePrediction) (doshaScores : DoshaScores)
    (lifestyle : LifestyleFactors) (params : HealthParameters) :
  In d (predictions_of doshaScores lifestyle params) <->
  In d (predictDiseases doshaScores lifestyle params).
Proof.
  unfold predictDiseases. split; intros H.
  - apply (Permutation_in _ (sort_perm probability _)). exact H.
  - apply (Permutation_in _ (Permutation_sym (sort_perm probability _))).
    exact H.
Qed.

Lemma andb_left (a b : bool) : (a && b)%bool = true -> a = true.
Proof. intros H. apply andb_true_iff in H. tauto. Qed.

Lemma andb_right (a b : bool) : (a && b)%bool = true -> b = true.
Proof. intros H. apply andb_true_iff in H. tauto. Qed.

(** X7: the findings Anxiety & Sleep Disorders, Hyperacidity &
    Inflammatory Conditions, Digital Eye Strain & Mental Fatigue and
    Chronic Stress & Burnout Risk are reported only when the stress level
    is high. *)
Theorem stress_findings_need_high_stress (doshaScores : DoshaScores)
    (lifestyle : LifestyleFactors) (params : HealthParameters) :
  params.(stressLevel) <> "high" ->
  Forall (fun d => ~ In d.(disease) stress_findings)
         (predictDiseases doshaScores lifestyle params).
Proof.
  intros Hs. apply predictions_all.
  assert (Hs' : streq (stressLevel params) "high" = false)
    by (apply String.eqb_neq; exact Hs).
  each_rule.
  all: cbn [disease]; unfold stress_findings.
  all: try (intros [E|[E|[E|[E|[]]]]]; discriminate E).
  all: exfalso.
  all: match goal with
       | H : (_ && _)%bool = true |- _ =>
           first [ apply andb_left in H; congruence
                 | apply andb_right in H; congruence ]
       end.
Qed.

Lemma stress_findings_need_high_stress_witness :
  calm_params.(stressLevel) <> "high" /\
  Forall (fun d => ~ In d.(disease) stress_findings)
         (predictDiseases balanced_scores rested_lifestyle calm_params).
Proof.
  split; [discriminate|].
  apply (stress_findings_need_high_stress
           balanced_scores rested_lifestyle calm_params).
  discriminate.
Defined.

(** X8: Sleep Deprivation Syndrome is reported exactly when fewer than 6
    hours are slept (never for a NaN duration); its probability is 0.75
    and its severity is high below 5 hours and moderate otherwise. *)
Theorem sleep_deprivation_rule (doshaScores : DoshaScores)
    (lifestyle : LifestyleFactors) (params : HealthParameters) :
  let out := predictDiseases doshaScores lifestyle params in
  ((exists d, In d out /\ d.(disease) = "Sleep Deprivation Syndrome")
   <-> JS.lt lifestyle.(sleepHours) (JS.of_Z 6) = true) /\
  Forall (fun d =>
            d.(disease) = "Sleep Deprivation Syndrome" ->
            d.(probability) = JS.Fin 0.75 /\
            d.(severity) =
              if JS.lt lifestyle.(sleepHours) (JS.of_Z 5)
              then "high" else "moderate")
         out.
Proof.
  intros out. subst out.
  assert (Hall :
    Forall (fun d =>
              d.(disease) = "Sleep Deprivation Syndrome" ->
              JS.lt lifestyle.(sleepHours) (JS.of_Z 6) = true /\
              d.(probability) = JS.Fin 0.75 /\
              d.(severity) =
                if JS.lt lifestyle.(sleepHours) (JS.of_Z 5)
                then "high" else "moderate")
           (predictDiseases doshaScores lifestyle params)).
  { apply predictions_all. each_rule.
    all: cbn [disease]; intros E; try discriminate E.
    repeat split; assumption || reflexivity. }
  split; [split|].
  - intros (d & Hin & E). rewrite Forall_forall in Hall.
    apply (Hall d Hin E).
  - intros Hlt. eexists. split.
    + apply in_predictDiseases. unfold predictions_of. cbv zeta.
      apply In_if_push_old, In_if_push_old, In_if_push_new. exact Hlt.
    + reflexivity.
  - eapply Forall_impl; [|exact Hall]. intros d H E.
    destruct (H E) as (_ & H1 & H2). auto.
Qed.

Lemma opt_streq_true (o : option string) (s : string) :
  opt_streq o s = true -> o = Some s.
Proof.
  destruct o as [t|]; simpl; [|discriminate].
  intros H. apply String.eqb_eq in H. now subst.
Qed.

(** X9: Metabolic Syndrome Risk is reported only when the lifestyle
    object itself carries [exerciseFrequency: 'rarely']; the
    [exerciseFrequency] of the health parameters is not consulted.  For a
    lifestyle as the interface declares it (no such property) the finding
    is never reported, whatever the profile and the BMI. *)
Theorem metabolic_needs_lifestyle_frequency (doshaScores : DoshaScores)
    (lifestyle : LifestyleFactors) (params : HealthParameters) :
  lifestyle.(lifestyle_exerciseFrequency) <> Some "rarely" ->
  Forall (fun d => d.(disease) <> "Metabolic Syndrome Risk")
         (predictDiseases doshaScores lifestyle params).
Proof.
  intros Hl. apply predictions_all. each_rule.
  all: cbn [disease]; try discriminate.
  exfalso. apply Hl.
  match goal with
  | H : (_ && opt_streq _ _)%bool = true |- _ =>
      apply andb_right in H; apply opt_streq_true in H; exact H
  end.
Qed.

Lemma metabolic_needs_lifestyle_frequency_witness :
  rested_lifestyle.(lifestyle_exerciseFrequency) <> Some "rarely" /\
  Forall (fun d => d.(disease) <> "Metabolic Syndrome Risk")
         (predictDiseases kapha_scores rested_lifestyle heavy_params).
Proof.
  split; [discriminate|].
  apply (metabolic_needs_lifestyle_frequency
           kapha_scores rested_lifestyle heavy_params).
  discriminate.
Defined.

(** ** The lifestyle risk report *)

Lemma add_keeps_bound (k : Z) (a b : number) :
  JS.le (JS.of_Z k) a -> positive_risk b = true ->
  JS.le (JS.of_Z k) (JS.add a b).
Proof.
  unfold positive_risk, JS.gt, JS.of_Z.
  destruct a, b; simpl; try discriminate; auto.
  rewrite Qlt_bool_iff. unfold inject_Z. intros H1 H2. lra.
Qed.

Lemma bound_if_record (k : Z) (c : bool) (f : RiskFactor)
    (st : risk_state) :
  JS.le (JS.of_Z k) (snd st) ->
  (c = true -> positive_risk f.(score) = true) ->
  JS.le (JS.of_Z k) (snd (if_then c (record_risk f) st)).
Proof.
  intros Hst Hc. unfold if_then. destruct c; [|assumption].
  destruct st as [l t]. simpl. apply add_keeps_bound; auto.
Qed.

Lemma min_100_keeps_bound (k t : number) :
  JS.le k t -> JS.le k (JS.of_Z 100) -> JS.le k (JS.min (JS.of_Z 100) t).
Proof.
  intros Ht Hk. unfold JS.min.
  destruct t as [x| | |]; try (destruct k; contradiction).
  - destruct (JS.lt (JS.Fin x) (JS.of_Z 100)); assumption.
  - cbn. exact Hk.
  - destruct k; simpl in Ht; try contradiction; exact I.
Qed.

Lemma le_not_lt (a b : number) : JS.le a b -> JS.lt b a = false.
Proof.
  destruct a, b; simpl; auto; try contradiction.
  intros H. apply Qlt_bool_false. exact H.
Qed.

Lemma in_riskFactors (r : RiskFactor) (lifestyle : LifestyleFactors)
    (params : HealthParameters) :
  In r (calculateLifestyleRisk lifestyle params).(riskFactors) <->
  In r (candidate_factors lifestyle params) /\ positive_score r = true.
Proof.
  unfold calculateLifestyleRisk.
  pose proof (riskFactors_pushed lifestyle params) as Hp.
  destruct (risk_state_of lifestyle params) as [l t]. simpl in Hp. subst l.
  simpl riskFactors. rewrite <- filter_In. split; intros H.
  - apply (Permutation_in _ (Permutation_sym (sort_perm score _))). exact H.
  - apply (Permutation_in _ (sort_perm score _)). exact H.
Qed.

(** X10: for a lifestyle without the [exerciseFrequency] property (as
    the interface declares it and the assessment form submits it), or with
    any value other than daily and weekly, the report always lists Low
    Physical Activity with 30 points and High impact on metabolism; the
    overall risk is therefore at least 30 and the dashboards never show
    it in green. *)
Theorem inactivity_always_reported (lifestyle : LifestyleFactors)
    (params : HealthParameters) :
  opt_streq lifestyle.(lifestyle_exerciseFrequency) "daily" = false ->
  opt_streq lifestyle.(lifestyle_exerciseFrequency) "weekly" = false ->
  let r := calculateLifestyleRisk lifestyle params in
  In {| factor := "Low Physical Activity";
        impact := "High impact on metabolism";
        score := JS.of_Z 30 |} r.(riskFactors) /\
  JS.le (JS.of_Z 30) r.(overallRisk) /\
  HealthDashboard.getRiskColor r.(overallRisk) <> "text-green-600" /\
  EnhancedHealthDashboard.getRiskColor r.(overallRisk) <> "text-green-600".
Proof.
  intros Hd Hw r. subst r.
  assert (Hex : exerciseRisk lifestyle = JS.of_Z 30)
    by (unfold exerciseRisk; now rewrite Hd, Hw).
  assert (Hle : JS.le (JS.of_Z 30)
                  (calculateLifestyleRisk lifestyle params).(overallRisk)).
  { unfold calculateLifestyleRisk.
    assert (H : JS.le (JS.of_Z 30) (snd (risk_state_of lifestyle params))).
    { unfold risk_state_of. cbv zeta.
      do 4 (apply bound_if_record; [|intros H; exact H]).
      rewrite Hex.
      change (positive_risk (JS.of_Z 30)) with true.
      unfold if_then at 1.
      pose proof (totalRisk_nonneg lifestyle params) as Hn.
      set (st := if_then (positive_risk (sleepRisk lifestyle)) _ _).
      assert (Hst : nonneg (snd st)).
      { subst st. apply total_if_record; [|intros H; exact H].
        unfold nonneg, JS.of_Z, inject_Z. simpl. lra. }
      destruct st as [l t]. simpl in *. unfold nonneg in Hst.
      destruct t as [x| | |]; simpl in *; try contradiction; [|exact I].
      unfold inject_Z in *. lra. }
    destruct (risk_state_of lifestyle params) as [l t].
    cbn [snd overallRisk] in *.
    apply min_100_keeps_bound; [exact H|].
    unfold JS.le, JS.of_Z, inject_Z, Qle. simpl. lia. }
  split; [|split; [exact Hle|]].
  - apply in_riskFactors. split; [|reflexivity].
    unfold candidate_factors, contribution_terms. rewrite Hex.
    simpl. right. left. reflexivity.
  - apply le_not_lt in Hle.
    unfold HealthDashboard.getRiskColor, EnhancedHealthDashboard.getRiskColor.
    rewrite Hle.
    split; destruct (JS.lt _ (JS.of_Z 60)); discriminate.
Qed.

Lemma inactivity_always_reported_witness :
  opt_streq rested_lifestyle.(lifestyle_exerciseFrequency) "daily" = false /\
  opt_streq rested_lifestyle.(lifestyle_exerciseFrequency) "weekly" = false /\
  In {| factor := "Low Physical Activity";
        impact := "High impact on metabolism";
        score := JS.of_Z 30 |}
     (calculateLifestyleRisk rested_lifestyle calm_params).(riskFactors) /\
  JS.le (JS.of_Z 30)
    (calculateLifestyleRisk rested_lifestyle calm_params).(overallRisk) /\
  HealthDashboard.getRiskColor
    (calculateLifestyleRisk rested_lifestyle calm_params).(overallRisk)
    <> "text-green-600" /\
  EnhancedHealthDashboard.getRiskColor
    (calculateLifestyleRisk rested_lifestyle calm_params).(overallRisk)
    <> "text-green-600".
Proof.
  split; [reflexivity|]. split; [reflexivity|].
  apply (inactivity_always_reported rested_lifestyle calm_params);
    reflexivity.
Defined.

Lemma capped_terms (lifestyle : LifestyleFactors) (params : HealthParameters)
    (r : RiskFactor) :
  In r (candidate_factors lifestyle params) -> positive_score r = true ->
  r.(factor) <> "Inadequate Sleep" ->
  JS.le r.(score) (JS.of_Z 30).
Proof.
  unfold candidate_factors, contribution_terms, positive_score. simpl map.
  intros [<-|[<-|[<-|[<-|[<-|[<-|[]]]]]]]; cbn [factor score]; intros Hp Hf.
  - now destruct Hf.
  - unfold exerciseRisk.
    repeat match goal with |- context [if ?c then _ else _] => destruct c end;
      unfold JS.le, JS.of_Z, inject_Z, Qle; simpl; lia.
  - unfold stressRisk.
    repeat match goal with |- context [if ?c then _ else _] => destruct c end;
      unfold JS.le, JS.of_Z, inject_Z, Qle; simpl; lia.
  - unfold screenRisk in *.
    destruct (JS.max _ _) as [x| | |]; try discriminate Hp.
    + unfold JS.min. destruct (JS.lt (JS.Fin x) (JS.of_Z 30)) eqn:E.
      * apply lt_le. exact E.
      * unfold JS.le, JS.of_Z, inject_Z, Qle. simpl. lia.
    + unfold JS.le, JS.of_Z, inject_Z, Qle. simpl. lia.
  - unfold waterRisk.
    destruct (streq _ _); unfold JS.le, JS.of_Z, inject_Z, Qle; simpl; lia.
  - unfold mealRisk.
    destruct (streq _ _); unfold JS.le, JS.of_Z, inject_Z, Qle; simpl; lia.
Qed.

Lemma progress_within_bar (s : number) :
  positive_risk s = true -> JS.le s (JS.of_Z 30) ->
  JS.le (JS.mul (JS.div s (JS.of_Z 30)) (JS.of_Z 100)) (JS.of_Z 100).
Proof.
  destruct s as [x| | |]; try discriminate; try contradiction.
  intros Hp Hle. rewrite div_Fin_Z by lia.
  unfold JS.mul, JS.of_Z in *. cbn [JS.le] in *.
  unfold Qdiv, inject_Z in *.
  change (/ (30 # 1))%Q with (1 # 30)%Q. lra.
Qed.

Lemma short_sleep_term (lifestyle : LifestyleFactors) :
  JS.lt lifestyle.(sleepHours) (JS.of_Z 4) = true ->
  JS.gt (sleepRisk lifestyle) (JS.of_Z 30) = true /\
  JS.gt (JS.mul (JS.div (sleepRisk lifestyle) (JS.of_Z 30)) (JS.of_Z 100))
    (JS.of_Z 100) = true.
Proof.
  unfold sleepRisk.
  destruct (sleepHours lifestyle) as [x| | |]; try discriminate;
    [|intros _; split; reflexivity].
  intros Hx. unfold JS.lt, JS.of_Z in Hx. apply Qlt_bool_iff in Hx.
  unfold JS.sub, JS.neg, JS.of_Z. cbn [JS.add JS.mul].
  assert (Hy : (inject_Z 30 < (inject_Z 7 + - x) * inject_Z 10)%Q)
    by (unfold inject_Z in *; lra).
  assert (E : JS.max (JS.Fin (inject_Z 0))
                (JS.Fin ((inject_Z 7 + - x) * inject_Z 10))
              = JS.Fin ((inject_Z 7 + - x) * inject_Z 10)).
  { unfold JS.max, JS.lt.
    assert (JS.Qlt_bool (inject_Z 0) ((inject_Z 7 + - x) * inject_Z 10) = true)
      by (apply Qlt_bool_iff; unfold inject_Z in *; lra).
    now rewrite H. }
  rewrite E. fold (JS.of_Z 30). rewrite div_Fin_Z by lia.
  unfold JS.gt, JS.lt, JS.mul, JS.of_Z. rewrite !Qlt_bool_iff.
  split; [exact Hy|].
  unfold Qdiv, inject_Z in *. change (/ (30 # 1))%Q with (1 # 30)%Q. lra.
Qed.

(** X11: every reported factor has a strictly positive score; every
    factor other than Inadequate Sleep scores at most 30, so its progress
    bar [(score / 30) * 100] stays within 100; the sleep term is not
    capped: with fewer than 4 hours of sleep Inadequate Sleep is reported
    with more than 30 points and a progress value above 100. *)
Theorem factor_scores_and_progress (lifestyle : LifestyleFactors)
    (params : HealthParameters) :
  let out := (calculateLifestyleRisk lifestyle params).(riskFactors) in
  Forall (fun r =>
            JS.gt r.(score) (JS.of_Z 0) = true /\
            (r.(factor) <> "Inadequate Sleep" ->
               JS.le r.(score) (JS.of_Z 30) /\
               JS.le (HealthDashboard.factor_progress r) (JS.of_Z 100)))
         out /\
  (JS.lt lifestyle.(sleepHours) (JS.of_Z 4) = true ->
     exists r, In r out /\ r.(factor) = "Inadequate Sleep" /\
               JS.gt r.(score) (JS.of_Z 30) = true /\
               JS.gt (HealthDashboard.factor_progress r) (JS.of_Z 100)
                 = true).
Proof.
  intros out. subst out. split.
  - apply Forall_forall. intros r Hr. apply in_riskFactors in Hr.
    destruct Hr as [Hin Hpos]. split; [exact Hpos|].
    intros Hf.
    pose proof (capped_terms lifestyle params r Hin Hpos Hf) as Hle.
    split; [exact Hle|].
    unfold HealthDashboard.factor_progress.
    now apply progress_within_bar.
  - intros Hlt. destruct (short_sleep_term lifestyle Hlt) as [H30 Hbar].
    exists {| factor := "Inadequate Sleep";
              impact := impact_of "Inadequate Sleep" (sleepRisk lifestyle);
              score := sleepRisk lifestyle |}.
    split; [|split; [reflexivity|split; [exact H30 | exact Hbar]]].
    apply in_riskFactors. split; [left; reflexivity|].
    unfold positive_score, positive_risk. cbn [score].
    destruct (sleepRisk lifestyle) as [y| | |]; try discriminate H30;
      [|reflexivity].
    unfold JS.gt, JS.lt, JS.of_Z in *. apply Qlt_bool_iff in H30.
    apply Qlt_bool_iff. unfold inject_Z in *. lra.
Qed.

(** ** Risk tiers on the dashboards *)

Lemma tiers_agree (r : number) :
  JS.is_NaN r = false ->
  exists tier m,
    HealthDashboard.risk_messages r = [m] /\
    tier_of_message m = Some tier /\
    tier_of_colour (HealthDashboard.getRiskColor r) = Some tier /\
    tier_of_colour (EnhancedHealthDashboard.getRiskColor r) = Some tier /\
    tier_of_status (EnhancedHealthDashboard.report_status r) = Some tier.
Proof.
  unfold HealthDashboard.risk_messages, HealthDashboard.getRiskColor,
    EnhancedHealthDashboard.getRiskColor,
    EnhancedHealthDashboard.report_status, js_ge.
  destruct r as [x| | |]; try discriminate; intros _.
  - unfold JS.lt, JS.of_Z.
    destruct (JS.Qlt_bool x (inject_Z 30)) eqn:E30;
      destruct (JS.Qlt_bool x (inject_Z 60)) eqn:E60.
    + exists LowRisk. eexists. repeat split; reflexivity.
    + exfalso. apply Qlt_bool_iff in E30. apply Qlt_bool_false in E60.
      unfold inject_Z in *. lra.
    + exists ModerateRisk. eexists. repeat split; reflexivity.
    + exists HighRisk. eexists. repeat split; reflexivity.
  - exists HighRisk. eexists. repeat split; reflexivity.
  - exists LowRisk. eexists. repeat split; reflexivity.
Qed.

(** X12: for every report of [calculateLifestyleRisk] the dashboard shows
    exactly one of its three risk messages, and the tier of that message,
    of the colour chosen by [getRiskColor] in both dashboards and of the
    status line of the text report is the same.  (For a NaN score the
    colour would be red while no message is shown; the scorer never
    returns NaN.) *)
Theorem risk_tiers_consistent (lifestyle : LifestyleFactors)
    (params : HealthParameters) :
  let r := (calculateLifestyleRisk lifestyle params).(overallRisk) in
  (exists tier m,
     HealthDashboard.risk_messages r = [m] /\
     tier_of_message m = Some tier /\
     tier_of_colour (HealthDashboard.getRiskColor r) = Some tier /\
     tier_of_colour (EnhancedHealthDashboard.getRiskColor r) = Some tier /\
     tier_of_status (EnhancedHealthDashboard.report_status r) = Some tier) /\
  HealthDashboard.risk_messages JS.NaN = [] /\
  HealthDashboard.getRiskColor JS.NaN = "text-red-600".
Proof.
  intros r. subst r. split; [|split; reflexivity].
  apply tiers_agree.
  unfold calculateLifestyleRisk.
  pose proof (totalRisk_nonneg lifestyle params) as H.
  destruct (risk_state_of lifestyle params) as [l t]. cbn [snd overallRisk] in *.
  destruct (min_100_range t H) as [H0 _].
  destruct (JS.min (JS.of_Z 100) t); simpl in H0; try contradiction;
    reflexivity.
Qed.

(** ** The overall risk is the clamped sum of the reported scores *)

Lemma positive_upper (a : number) : positive_risk a = true -> upper a.
Proof. destruct a; simpl; auto; discriminate. Qed.

Lemma total_is_sum_record (c : bool) (f : RiskFactor) (st : risk_state) :
  total_is_sum st -> total_is_sum (if_then c (record_risk f) st).
Proof.
  unfold total_is_sum, if_then. destruct c; [|trivial].
  destruct st as [l t]. unfold record_risk, push. cbn [fst snd]. intros ->.
  unfold running_total. rewrite fold_left_app. reflexivity.
Qed.

Lemma total_is_sum_pushed (lifestyle : LifestyleFactors)
    (params : HealthParameters) :
  total_is_sum (risk_state_of lifestyle params).
Proof.
  unfold risk_state_of. cbv zeta.
  repeat apply total_is_sum_record.
  reflexivity.
Qed.

(** X13: the overall risk is the sum of the scores of the reported
    factors, clamped at 100, where the scores are added from zero in the
    order in which the source evaluates its six blocks (sleep, exercise,
    stress, screen time, water, meals), not in the sorted order of the
    output: the factors pushed are the reported ones, in evaluation order,
    and [overallRisk] is exactly [Math.min(100, ((0 + s1) + s2) + ...)]
    over them. *)
Theorem overallRisk_is_clamped_sum (lifestyle : LifestyleFactors)
    (params : HealthParameters) :
  let r := calculateLifestyleRisk lifestyle params in
  let pushed := filter positive_score (candidate_factors lifestyle params) in
  Permutation pushed r.(riskFactors) /\
  StronglySorted (idx_lt term_index) pushed /\
  r.(overallRisk) = JS.min (JS.of_Z 100) (running_total pushed).
Proof.
  intros r pushed. subst r pushed. unfold calculateLifestyleRisk.
  pose proof (riskFactors_pushed lifestyle params) as Hp.
  pose proof (total_is_sum_pushed lifestyle params) as Ht.
  unfold total_is_sum in Ht.
  destruct (risk_state_of lifestyle params) as [l t].
  cbn [fst snd overallRisk riskFactors] in *. subst l t.
  split; [apply (sort_perm score)|].
  split; [apply filter_sorted, candidate_factors_in_order | reflexivity].
Qed.

(* ------------------------------------------------------------------ *)
(** * Properties of the server *)

(** ** Bearer tokens *)

Lemma js_split_no_sep (sep : ascii) (s : string) :
  contains sep s = false -> js_split sep s = [s].
Proof.
  induction s as [|c s IH]; simpl; [reflexivity|].
  intros H. apply orb_false_iff in H. destruct H as [Hc Hs].
  rewrite Hc, (IH Hs). reflexivity.
Qed.

Lemma js_split_app (sep : ascii) (a b : string) :
  contains sep a = false ->
  js_split sep (a ++ String sep b) = a :: js_split sep b.
Proof.
  induction a as [|c a IH]; simpl.
  - intros _. now rewrite Ascii.eqb_refl.
  - intros H. apply orb_false_iff in H. destruct H as [Hc Ha].
    rewrite Hc, (IH Ha). reflexivity.
Qed.

(** X14: the token that [apiRequest] puts in its Authorization header is
    the token the server extracts: for a non-empty access token without a
    space the handler's [split(' ')[1]] returns it unchanged, and
    [verifyUser] answers with the user that [getUser] resolves for that
    token (null on an error, on a missing user or when the call throws). *)
Theorem bearer_token_round_trip {user : Type}
    (getUser : string -> getUser_outcome user)
    (publicAnonKey token : string) :
  token <> "" -> contains " " token = false ->
  bearer_token (Some (authorization_header publicAnonKey (Some token)))
    = Some token /\
  verifyUser getUser
    (bearer_token (Some (authorization_header publicAnonKey (Some token))))
    = match getUser token with
      | Resolved data_user false => data_user
      | _ => None
      end.
Proof.
  intros Hne Hsp.
  assert (E : bearer_token
                (Some (authorization_header publicAnonKey (Some token)))
              = Some token).
  { unfold bearer_token, authorization_header.
    apply String.eqb_neq in Hne. rewrite Hne.
    change ("Bearer " ++ token)%string
      with ("Bearer" ++ String " " token)%string.
    rewrite js_split_app by reflexivity.
    rewrite (js_split_no_sep _ _ Hsp). reflexivity. }
  split; [exact E|].
  rewrite E. unfold verifyUser.
  apply String.eqb_neq in Hne. rewrite Hne.
  destruct (getUser token) as [u [|]|]; reflexivity.
Qed.

Lemma bearer_token_round_trip_witness :
  "abc.def" <> "" /\ contains " " "abc.def" = false /\
  bearer_token (Some (authorization_header "anon" (Some "abc.def")))
    = Some "abc.def" /\
  verifyUser (fun t => Resolved (Some t) false)
    (bearer_token (Some (authorization_header "anon" (Some "abc.def"))))
    = match Resolved (Some "abc.def") false with
      | Resolved data_user false => data_user
      | _ => None
      end.
Proof.
  split; [discriminate|]. split; [reflexivity|].
  apply (bearer_token_round_trip (fun t => Resolved (Some t) false)
           "anon" "abc.def"); [discriminate | reflexivity].
Defined.

(** X15: a request without a usable token is never authenticated, whatever
    the authentication service would answer: no Authorization header, a
    header without a space, and a header whose second word is empty (such
    as the bare scheme followed by a space, or two spaces after the scheme)
    all make [verifyUser] return null. *)
Theorem missing_token_is_rejected {user : Type}
    (getUser : string -> getUser_outcome user) :
  verifyUser getUser (bearer_token None) = None /\
  (forall h, contains " " h = false ->
     verifyUser getUser (bearer_token (Some h)) = None) /\
  (forall scheme rest, contains " " scheme = false ->
     verifyUser getUser
       (bearer_token (Some (scheme ++ String " " (String " " rest)))) = None) /\
  verifyUser getUser (bearer_token (Some "Bearer ")) = None.
Proof.
  split; [reflexivity|]. split; [|split; [|reflexivity]].
  - intros h Hh. unfold bearer_token.
    rewrite (js_split_no_sep _ _ Hh). reflexivity.
  - intros scheme rest Hs. unfold bearer_token.
    rewrite js_split_app by assumption. reflexivity.
Qed.

(** X16: the handlers do not check the scheme word and ignore everything
    after a second space: for any space-free scheme and token, the header
    [scheme token trailer] yields exactly [token]. *)
Theorem scheme_is_not_checked (scheme token trailer : string) :
  contains " " scheme = false -> contains " " token = false ->
  bearer_token (Some (scheme ++ String " " token)) = Some token /\
  bearer_token (Some (scheme ++ String " " (token ++ String " " trailer)))
    = Some token.
Proof.
  intros Hs Ht. unfold bearer_token. split.
  - rewrite js_split_app by assumption.
    rewrite (js_split_no_sep _ _ Ht). reflexivity.
  - rewrite js_split_app by assumption.
    rewrite js_split_app by assumption. reflexivity.
Qed.

Lemma scheme_is_not_checked_witness :
  contains " " "Basic" = false /\ contains " " "abc.def" = false /\
  bearer_token (Some ("Basic" ++ String " " "abc.def")) = Some "abc.def" /\
  bearer_token
    (Some ("Basic" ++ String " " ("abc.def" ++ String " " "trailing words")))
    = Some "abc.def".
Proof.
  split; [reflexivity|]. split; [reflexivity|].
  apply (scheme_is_not_checked "Basic" "abc.def" "trailing words");
    reflexivity.
Defined.

(** ** Storage keys *)

Lemma prefix_colon_free (a b r r' : string) :
  contains ":" a = false -> contains ":" b = false ->
  String.prefix (a ++ String ":" r) (b ++ String ":" r') = true ->
  a = b /\ String.prefix r r' = true.
Proof.
  revert b. induction a as [|c a IH]; intros [|c' b] Ha Hb;
    cbn [String.prefix String.append contains] in *.
  - destruct (ascii_dec ":" ":"); [auto | congruence].
  - apply orb_false_iff in Hb. destruct Hb as [Hc' _].
    destruct (ascii_dec ":" c') as [<-|]; [|intros H; discriminate H].
    rewrite Ascii.eqb_refl in Hc'. discriminate Hc'.
  - apply orb_false_iff in Ha. destruct Ha as [Hc _].
    destruct (ascii_dec c ":") as [->|]; [|intros H; discriminate H].
    rewrite Ascii.eqb_refl in Hc. discriminate Hc.
  - apply orb_false_iff in Ha, Hb. destruct Ha as [_ Ha], Hb as [_ Hb].
    destruct (ascii_dec c c') as [<-|]; [|intros H; discriminate H].
    intros H. destruct (IH b Ha Hb H) as [-> Hr]. auto.
Qed.

Lemma prefix_app (s t : string) : String.prefix s (s ++ t) = true.
Proof.
  induction s as [|c s IH]; cbn [String.prefix String.append];
    [destruct t; reflexivity|].
  destruct (ascii_dec c c); [exact IH | congruence].
Qed.

Lemma string_app_assoc (s t u : string) :
  ((s ++ t) ++ u)%string = (s ++ (t ++ u))%string.
Proof.
  induction s as [|c s IH]; cbn [String.append]; [reflexivity|].
  now rewrite IH.
Qed.

Lemma app_colon_free_inj (a b r r' : string) :
  contains ":" a = false -> contains ":" b = false ->
  (a ++ String ":" r)%string = (b ++ String ":" r')%string ->
  a = b /\ r = r'.
Proof.
  revert b. induction a as [|c a IH]; intros [|c' b] Ha Hb H; simpl in *.
  - injection H as ->. auto.
  - apply orb_false_iff in Hb. destruct Hb as [Hc' _].
    injection H as <- _. rewrite Ascii.eqb_refl in Hc'. discriminate Hc'.
  - apply orb_false_iff in Ha. destruct Ha as [Hc _].
    injection H as -> _. rewrite Ascii.eqb_refl in Hc. discriminate Hc.
  - apply orb_false_iff in Ha, Hb. destruct Ha as [_ Ha], Hb as [_ Hb].
    injection H as <- H. destruct (IH b Ha Hb H) as [-> ->]. auto.
Qed.

(** X17: every history key of a user starts with the prefix that
    [GET /history/:type] lists for that user and the kind saved, whatever
    the user id, kind and timestamp; and the listing of one user never
    matches a key of another: for user ids without a colon (Supabase ids
    are UUIDs), a key under which a handler saves history for user [b]
    starts with the prefix listed for user [a] only if [a = b] (and, for a
    colon-free type and kind, only if the type is the kind saved). *)
Theorem history_listing_is_per_user (a b type kind timestamp : string) :
  String.prefix (history_prefix b kind) (history_key b kind timestamp) = true /\
  (contains ":" a = false -> contains ":" b = false ->
   String.prefix (history_prefix a type) (history_key b kind timestamp) = true ->
   a = b /\
   (contains ":" type = false -> contains ":" kind = false -> type = kind)).
Proof.
  split.
  - unfold history_prefix, history_key.
    replace ("user:" ++ b ++ ":" ++ kind ++ ":history:" ++ timestamp)%string
      with (("user:" ++ b ++ ":" ++ kind ++ ":history:") ++ timestamp)%string.
    + apply prefix_app.
    + now rewrite !string_app_assoc.
  - intros Ha Hb H. unfold history_prefix, history_key in *.
    change ("user:" ++ a ++ ":" ++ type ++ ":history:")%string
      with ("user:" ++ (a ++ String ":" (type ++ ":history:")))%string in H.
    change ("user:" ++ b ++ ":" ++ kind ++ ":history:" ++ timestamp)%string
      with ("user:" ++ (b ++ String ":" (kind ++ ":history:" ++ timestamp)))%string
      in H.
    simpl in H.
    destruct (prefix_colon_free _ _ _ _ Ha Hb H) as [-> Hr].
    split; [reflexivity|].
    intros Ht Hk.
    change (type ++ ":history:")%string
      with (type ++ String ":" "history:")%string in Hr.
    change (kind ++ ":history:" ++ timestamp)%string
      with (kind ++ String ":" ("history:" ++ timestamp))%string in Hr.
    now destruct (prefix_colon_free _ _ _ _ Ht Hk Hr).
Qed.

Lemma history_listing_is_per_user_witness :
  contains ":" "u1" = false /\ contains ":" "u1" = false /\
  String.prefix (history_prefix "u1" "dosha")
    (history_key "u1" "dosha" "2024-01-01T00:00:00.000Z") = true /\
  ("u1" = "u1" /\
   (contains ":" "dosha" = false -> contains ":" "dosha" = false ->
      "dosha" = "dosha")).
Proof.
  split; [reflexivity|]. split; [reflexivity|]. split; [reflexivity|].
  apply (proj2 (history_listing_is_per_user
                  "u1" "u1" "dosha" "dosha" "2024-01-01T00:00:00.000Z"));
    reflexivity.
Defined.

Lemma stored_kind_colon_free (k : string) :
  In k stored_kinds -> contains ":" k = false.
Proof. intros [<-|[<-|[<-|[<-|[]]]]]; reflexivity. Qed.

(** X18: for user ids without a colon the keys of the handlers do not
    collide: the latest-entry keys of two users or of two kinds are
    different, and a latest-entry key is never a profile key or a history
    key; so saving one record never overwrites a record of another user
    or of another kind. *)
Theorem stored_keys_do_not_collide (a b k k' : string) :
  contains ":" a = false -> contains ":" b = false ->
  In k stored_kinds -> In k' stored_kinds ->
  (latest_key a k = latest_key b k' -> a = b /\ k = k') /\
  profile_key a <> latest_key b k' /\
  (forall timestamp, history_key a k timestamp <> latest_key b k').
Proof.
  intros Ha Hb Hk Hk'.
  pose proof (stored_kind_colon_free k Hk) as Ck.
  pose proof (stored_kind_colon_free k' Hk') as Ck'.
  unfold latest_key, profile_key, history_key.
  split; [|split].
  - intros H.
    change ("user:" ++ a ++ ":" ++ k ++ ":latest")%string
      with ("user:" ++ (a ++ String ":" (k ++ String ":" "latest")))%string in H.
    change ("user:" ++ b ++ ":" ++ k' ++ ":latest")%string
      with ("user:" ++ (b ++ String ":" (k' ++ String ":" "latest")))%string
      in H.
    injection H as H.
    destruct (app_colon_free_inj _ _ _ _ Ha Hb H) as [-> H'].
    destruct (app_colon_free_inj _ _ _ _ Ck Ck' H') as [-> _]. auto.
  - intros H.
    change ("user:" ++ a ++ ":profile")%string
      with ("user:" ++ (a ++ String ":" "profile"))%string in H.
    change ("user:" ++ b ++ ":" ++ k' ++ ":latest")%string
      with ("user:" ++ (b ++ String ":" (k' ++ String ":" "latest")))%string
      in H.
    injection H as H.
    destruct (app_colon_free_inj _ _ _ _ Ha Hb H) as [_ H'].
    destruct Hk' as [<-|[<-|[<-|[<-|[]]]]]; discriminate H'.
  - intros timestamp H.
    change ("user:" ++ a ++ ":" ++ k ++ ":history:" ++ timestamp)%string
      with ("user:" ++ (a ++ String ":"
                          (k ++ String ":" ("history:" ++ timestamp))))%string
      in H.
    change ("user:" ++ b ++ ":" ++ k' ++ ":latest")%string
      with ("user:" ++ (b ++ String ":" (k' ++ String ":" "latest")))%string
      in H.
    injection H as H.
    destruct (app_colon_free_inj _ _ _ _ Ha Hb H) as [_ H'].
    destruct (app_colon_free_inj _ _ _ _ Ck Ck' H') as [_ H''].
    discriminate H''.
Qed.

Lemma stored_keys_do_not_collide_witness :
  contains ":" "u1" = false /\ contains ":" "u2" = false /\
  In "dosha" stored_kinds /\ In "health" stored_kinds /\
  ((latest_key "u1" "dosha" = latest_key "u2" "health" ->
      "u1" = "u2" /\ "dosha" = "health") /\
   profile_key "u1" <> latest_key "u2" "health" /\
   (forall timestamp,
      history_key "u1" "dosha" timestamp <> latest_key "u2" "health")).
Proof.
  split; [reflexivity|]. split; [reflexivity|].
  split; [simpl; auto|]. split; [simpl; auto|].
  apply (stored_keys_do_not_collide "u1" "u2" "dosha" "health");
    try reflexivity; simpl; auto.
Defined.

(** ** generateDoctorRecommendations *)


(** X20: as the dashboard calls it (with the dominant dosha of the
    scores), the first practitioner always carries the specialisation
    customised for that dosha; the default Panchakarma & Dosha Balancing is
    never returned to the dashboard, whatever the scores (NaN
    included). *)
Theorem first_doctor_is_customised (doshaScores : DoshaScores)
    (predictions : list DiseasePrediction)
    (coords : option (number * number)) :
  exists d rest,
    nearby_doctors doshaScores predictions coords = d :: rest /\
    d.(name) = "Dr. Priya Sharma" /\
    In d.(ayushFocus) customised_focus /\
    d.(ayushFocus) <> "Panchakarma & Dosha Balancing" /\
    d.(ayushFocus) =
      (if streq (getDominantDosha doshaScores) "Vata"
       then "Vata Balancing & Anxiety Management"
       else if streq (getDominantDosha doshaScores) "Pitta"
       then "Pitta Cooling & Inflammation Control"
       else "Kapha Stimulation & Weight Management").
Proof.
  unfold nearby_doctors.
  destruct (dominant_label doshaScores) as [<-|[<-|[<-|[]]]];
    eexists; eexists; (split; [reflexivity|]);
    cbn [name ayushFocus]; (split; [reflexivity|]);
    (split; [simpl; auto|]); (split; [discriminate | reflexivity]).
Qed.

(* ------------------------------------------------------------------ *)
(** * Properties of the application's analysis *)

Lemma computed_scores_are_percent (params : HealthParameters) :
  valid_params params = true -> percent_scores (calculateDoshaProfile params).
Proof.
  intros Hv.
  assert (Hall : forallb sum_check all_scored_combinations = true)
    by (vm_compute; reflexivity).
  pose proof (forall_scored sum_check Hall params (valid_enums params Hv)) as H.
  unfold sum_check in H. rewrite accumulators_canon in H.
  unfold percent_scores, calculateDoshaProfile.
  destruct (accumulators params) as [[v pi] k].
  cbv zeta in H. rewrite !andb_true_iff in H.
  destruct H as [[[[[[[[Ht Ha0] Ha1] Hb0] Hb1] Hc0] Hc1] Hs0] Hs1].
  apply negb_true_iff, Z.eqb_neq in Ht.
  exists (pct v (v + pi + k)), (pct pi (v + pi + k)), (pct k (v + pi + k)).
  rewrite !percentage_of_Z by assumption.
  split; [reflexivity|]. lia.
Qed.

Lemma linear_probability_cap (a : Z) (base : Q) (k : Z) :
  a <= 100 -> 0 < k ->
  (base + inject_Z 100 / inject_Z k <= 1.15)%Q ->
  JS.le (JS.add (JS.Fin base) (JS.div (JS.of_Z a) (JS.of_Z k)))
        (JS.Fin 1.15).
Proof.
  intros Ha Hk Hb. rewrite div_of_Z by lia. cbn [JS.add JS.le].
  assert (Hk' : (0 < inject_Z k)%Q)
    by (change 0%Q with (inject_Z 0); rewrite <- Zlt_Qlt; exact Hk).
  assert (Ha' : (inject_Z a <= inject_Z 100)%Q) by (rewrite <- Zle_Qle; exact Ha).
  unfold Qdiv in *.
  assert (Hc : (0 < / inject_Z k)%Q) by now apply Qinv_lt_0_compat.
  assert (Hm : (0 <= (inject_Z 100 - inject_Z a) * / inject_Z k)%Q)
    by (apply Qmult_le_0_compat; lra).
  lra.
Qed.

Lemma probabilities_capped (a b c : Z) (lifestyle : LifestyleFactors)
    (params : HealthParameters) :
  a <= 100 -> b <= 100 -> c <= 100 ->
  lifestyle.(lifestyle_exerciseFrequency) <> Some "rarely" ->
  Forall (fun d => JS.le d.(probability) (JS.Fin 1.15))
    (predictions_of
       {| vata := JS.of_Z a; pitta := JS.of_Z b; kapha := JS.of_Z c |}
       lifestyle params).
Proof.
  intros Ha Hb Hc Hl. each_rule.
  all: cbn [probability vata pitta kapha].
  all: try (apply linear_probability_cap; [assumption|lia|
              unfold Qle; simpl; lia]).
  all: try (unfold JS.le, Qle; simpl; lia).
  exfalso. apply Hl.
  match goal with
  | H : (_ && opt_streq _ _)%bool = true |- _ =>
      apply andb_right in H; apply opt_streq_true in H; exact H
  end.
Qed.

(** X21: in the application's analysis of valid attributes and of a
    lifestyle as the form submits it (no [exerciseFrequency: 'rarely'] on
    the lifestyle object), every finding has a probability between 0.5 and
    1.15. *)
Theorem analysis_probability_range (params : HealthParameters)
    (lifestyle : LifestyleFactors) :
  valid_params params = true ->
  lifestyle.(lifestyle_exerciseFrequency) <> Some "rarely" ->
  Forall (fun d =>
            JS.le (JS.Fin 0.5) d.(probability) /\
            JS.le d.(probability) (JS.Fin 1.15))
         (snd (fst (analysis params lifestyle))).
Proof.
  intros Hv Hl. unfold analysis. cbn [fst snd].
  destruct (computed_scores_are_percent params Hv)
    as (a & b & c & E & Ha & Hb & Hc).
  rewrite E. apply predictions_all.
  apply Forall_forall. intros d Hd. split.
  - pose proof (probabilities_pushed
                  {| vata := JS.of_Z a; pitta := JS.of_Z b; kapha := JS.of_Z c |}
                  lifestyle params) as H.
    rewrite Forall_forall in H. now apply H.
  - pose proof (probabilities_capped a b c lifestyle params Ha Hb Hc Hl) as H.
    rewrite Forall_forall in H. now apply H.
Qed.

Lemma analysis_probability_range_witness :
  valid_params example_params = true /\
  short_sleeper.(lifestyle_exerciseFrequency) <> Some "rarely" /\
  Forall (fun d =>
            JS.le (JS.Fin 0.5) d.(probability) /\
            JS.le d.(probability) (JS.Fin 1.15))
         (snd (fst (analysis example_params short_sleeper))).
Proof.
  split; [reflexivity|]. split; [discriminate|].
  apply (analysis_probability_range example_params short_sleeper);
    [reflexivity | discriminate].
Defined.

(* ------------------------------------------------------------------ *)
(** * Monotonicity of the lifestyle risk *)

Lemma le_refl_upper (a : number) : upper a -> JS.le a a.
Proof. destruct a; simpl; auto. intros _. apply Qle_refl. Qed.

Lemma nonneg_upper (a : number) : nonneg a -> upper a.
Proof. destruct a; simpl; auto. Qed.

Lemma add_le_compat (t t' s s' : number) :
  nonneg t -> JS.le t t' -> positive_risk s = true -> JS.le s s' ->
  JS.le (JS.add t s) (JS.add t' s').
Proof.
  unfold nonneg, positive_risk, JS.gt, JS.of_Z.
  destruct t, t', s, s'; simpl; try discriminate; try contradiction; auto.
  intros _ H1 _ H2. lra.
Qed.

Lemma le_add_positive (t t' s : number) :
  nonneg t -> JS.le t t' -> positive_risk s = true ->
  JS.le t (JS.add t' s).
Proof.
  unfold nonneg, positive_risk, JS.gt, JS.of_Z.
  destruct t, t', s; simpl; try discriminate; try contradiction; auto.
  rewrite Qlt_bool_iff. unfold inject_Z. intros _ H1 H2. lra.
Qed.

(** One block of the body run on two states whose totals are ordered, with
    ordered scores. *)
Lemma record_le (f f' : RiskFactor) (st st' : risk_state) :
  nonneg (snd st) -> JS.le (snd st) (snd st') ->
  (positive_risk f.(score) = true ->
     positive_risk f'.(score) = true /\ JS.le f.(score) f'.(score)) ->
  JS.le (snd (if_then (positive_risk f.(score)) (record_risk f) st))
        (snd (if_then (positive_risk f'.(score)) (record_risk f') st')).
Proof.
  intros Hn Hle Hs. destruct st as [l t], st' as [l' t'].
  unfold if_then. cbn [snd] in *.
  destruct (positive_risk (score f)) eqn:E.
  - destruct (Hs eq_refl) as [E' Hff]. rewrite E'. cbn [record_risk snd].
    now apply add_le_compat.
  - destruct (positive_risk (score f')) eqn:E'; cbn [record_risk snd];
      [|exact Hle].
    now apply le_add_positive.
Qed.

Lemma same_score_le (s : number) :
  positive_risk s = true -> positive_risk s = true /\ JS.le s s.
Proof.
  intros H. split; [exact H|]. apply le_refl_upper. now apply positive_upper.
Qed.

Lemma min_100_mono (t t' : number) :
  JS.le t t' -> JS.le (JS.min (JS.of_Z 100) t) (JS.min (JS.of_Z 100) t').
Proof.
  unfold JS.min, JS.of_Z.
  destruct t as [x| | |], t' as [y| | |]; cbn [JS.le JS.lt];
    try contradiction; intros H.
  all: repeat match goal with
       | |- context [JS.Qlt_bool ?a ?b] =>
           let E := fresh "E" in
           destruct (JS.Qlt_bool a b) eqn:E;
           [apply Qlt_bool_iff in E | apply Qlt_bool_false in E]
       end.
  all: cbn [JS.le]; unfold inject_Z in *; try exact I; lra.
Qed.

Lemma sleepRisk_antitone (l : LifestyleFactors) (h h' : Q) :
  (h <= h')%Q ->
  positive_risk (sleepRisk (with_sleepHours l (JS.Fin h'))) = true ->
  positive_risk (sleepRisk (with_sleepHours l (JS.Fin h))) = true /\
  JS.le (sleepRisk (with_sleepHours l (JS.Fin h')))
        (sleepRisk (with_sleepHours l (JS.Fin h))).
Proof.
  intros Hh. unfold sleepRisk, with_sleepHours, positive_risk. cbn [sleepHours].
  unfold JS.sub, JS.neg, JS.of_Z, JS.gt, JS.max. cbn [JS.add JS.mul JS.lt].
  repeat match goal with
         | |- context [JS.Qlt_bool ?a ?b] =>
             let E := fresh "E" in
             destruct (JS.Qlt_bool a b) eqn:E;
             [apply Qlt_bool_iff in E | apply Qlt_bool_false in E]
         end;
    cbn [JS.lt JS.le]; intros Hp;
    try (apply Qlt_bool_iff in Hp);
    unfold inject_Z in *; (split; [try apply Qlt_bool_iff|]); lra.
Qed.

Lemma screenRisk_monotone (l : LifestyleFactors) (h h' : Q) :
  (h <= h')%Q ->
  positive_risk (screenRisk (with_screenTime l (JS.Fin h))) = true ->
  positive_risk (screenRisk (with_screenTime l (JS.Fin h'))) = true /\
  JS.le (screenRisk (with_screenTime l (JS.Fin h)))
        (screenRisk (with_screenTime l (JS.Fin h'))).
Proof.
  intros Hh. unfold screenRisk, with_screenTime, positive_risk. cbn [screenTime].
  unfold JS.sub, JS.neg, JS.of_Z, JS.gt, JS.max, JS.min.
  cbn [JS.add JS.mul JS.lt].
  repeat match goal with
         | |- context [JS.Qlt_bool ?a ?b] =>
             let E := fresh "E" in
             destruct (JS.Qlt_bool a b) eqn:E;
             [apply Qlt_bool_iff in E | apply Qlt_bool_false in E];
             cbn [JS.lt]
         end;
    cbn [JS.lt JS.le]; intros Hp;
    try (apply Qlt_bool_iff in Hp);
    unfold inject_Z in *; (split; [try apply Qlt_bool_iff|]); lra.
Qed.

Lemma overallRisk_eq (l : LifestyleFactors) (params : HealthParameters) :
  (calculateLifestyleRisk l params).(overallRisk)
  = JS.min (JS.of_Z 100) (snd (risk_state_of l params)).
Proof.
  unfold calculateLifestyleRisk.
  destruct (risk_state_of l params) as [fs t]. reflexivity.
Qed.

Lemma record_le_blocks (c c' : bool) (f f' : RiskFactor)
    (st st' : risk_state) :
  c = positive_risk f.(score) -> c' = positive_risk f'.(score) ->
  nonneg (snd st) -> JS.le (snd st) (snd st') ->
  (positive_risk f.(score) = true ->
     positive_risk f'.(score) = true /\ JS.le f.(score) f'.(score)) ->
  JS.le (snd (if_then c (record_risk f) st))
        (snd (if_then c' (record_risk f') st')).
Proof. intros -> ->. apply record_le. Qed.

(** Steps through the six blocks of two runs whose totals are ordered. *)
Ltac nonneg_state :=
  repeat (apply total_if_record; [|intros ?H; assumption]);
  unfold nonneg, JS.of_Z, inject_Z; simpl; lra.

Ltac same_block :=
  apply record_le_blocks;
    [reflexivity|reflexivity|nonneg_state| |apply same_score_le].

(** X22: with everything else unchanged, sleeping more never raises the
    overall lifestyle risk and more screen time never lowers it (finite
    durations). *)
Theorem overallRisk_monotone (l : LifestyleFactors)
    (params : HealthParameters) (h h' : Q) :
  (h <= h')%Q ->
  JS.le (calculateLifestyleRisk (with_sleepHours l (JS.Fin h')) params).(overallRisk)
        (calculateLifestyleRisk (with_sleepHours l (JS.Fin h)) params).(overallRisk)
  /\
  JS.le (calculateLifestyleRisk (with_screenTime l (JS.Fin h)) params).(overallRisk)
        (calculateLifestyleRisk (with_screenTime l (JS.Fin h')) params).(overallRisk).
Proof.
  intros Hh. rewrite !overallRisk_eq. split; apply min_100_mono.
  - unfold risk_state_of. cbv zeta.
    do 5 same_block.
    apply record_le_blocks; [reflexivity|reflexivity| | |].
    + unfold nonneg, JS.of_Z, inject_Z; simpl; lra.
    + unfold JS.of_Z, inject_Z; simpl; lra.
    + now apply sleepRisk_antitone.
  - unfold risk_state_of. cbv zeta.
    do 2 same_block.
    apply record_le_blocks;
      [reflexivity|reflexivity|nonneg_state| |now apply screenRisk_monotone].
    do 3 same_block.
    unfold JS.of_Z, inject_Z; simpl; lra.
Qed.

Lemma overallRisk_monotone_witness :
  (5 <= 8)%Q /\
  JS.le (calculateLifestyleRisk (with_sleepHours rested_lifestyle (JS.Fin 8))
           calm_params).(overallRisk)
        (calculateLifestyleRisk (with_sleepHours rested_lifestyle (JS.Fin 5))
           calm_params).(overallRisk)
  /\
  JS.le (calculateLifestyleRisk (with_screenTime rested_lifestyle (JS.Fin 5))
           calm_params).(overallRisk)
        (calculateLifestyleRisk (with_screenTime rested_lifestyle (JS.Fin 8))
           calm_params).(overallRisk).
Proof.
  split; [unfold Qle; simpl; lia|].
  apply (overallRisk_monotone rested_lifestyle calm_params 5 8).
  unfold Qle; simpl; lia.
Defined.

(* ------------------------------------------------------------------ *)
(** * Input that is not valid *)

(** Every comparison of [calculateDoshaProfile] is with a literal of the
    declared set, so a value outside the set is seen as any other value
    outside it. *)

(** Membership of a literal in a literal list. *)
Ltac in_domain := vm_compute; repeat (first [left; reflexivity | right]).

Lemma mem_seen_as (dom : list string) (value : string) :
  mem "" dom = false -> mem (seen_as dom value) dom = mem value dom.
Proof.
  unfold seen_as. destruct (mem value dom) eqn:E; intros H; [exact E | exact H].
Qed.

Lemma eqb_seen_as (dom : list string) (value x : string) :
  In x dom -> x <> "" ->
  String.eqb (seen_as dom value) x = String.eqb value x.
Proof.
  intros Hin Hx. unfold seen_as. destruct (mem value dom) eqn:E; [reflexivity|].
  transitivity false.
  - apply String.eqb_neq. congruence.
  - symmetry. apply String.eqb_neq. intros ->.
    apply not_true_iff_false in E. apply E.
    unfold mem. apply existsb_exists. exists x.
    split; [exact Hin | apply String.eqb_refl].
Qed.

Lemma seen_as_in (dom : list string) (value : string) :
  In (seen_as dom value) (or_outside dom).
Proof.
  unfold seen_as, or_outside. apply in_or_app.
  destruct (mem value dom) eqn:E; [left; now apply mem_In | right; now left].
Qed.

Lemma assoc_seen_as {V : Type} (dom : list string) (row : list (string * V))
    (value : string) :
  (forall k, In k (map fst row) -> In k dom /\ k <> "") ->
  assoc (seen_as dom value) row = assoc value row.
Proof.
  induction row as [|[k v] row IH]; intros H; cbn [assoc]; [reflexivity|].
  destruct (H k (or_introl eq_refl)) as [Hin Hk].
  rewrite (eqb_seen_as dom value k Hin Hk).
  rewrite IH; [reflexivity|]. intros k' Hk'. apply H. right. exact Hk'.
Qed.

Lemma table_entry_seen_as (attribute : string) (dom : list string)
    (value : string) :
  In attribute (map fst weight_table) -> attribute_domain attribute = dom ->
  table_entry attribute (seen_as dom value) = table_entry attribute value.
Proof.
  intros Hin <-. simpl in Hin.
  destruct Hin as [<-|[<-|[<-|[<-|[<-|[<-|[]]]]]]].
  all: unfold table_entry.
  all: match goal with
       | |- context [assoc ?a weight_table] =>
           let r := eval vm_compute in (assoc a weight_table) in
           change (assoc a weight_table) with r
       end.
  all: cbv beta iota.
  all: apply assoc_seen_as.
  all: intros k Hk; simpl in Hk.
  all: destruct Hk as [<-|[<-|[<-|[]]]]; (split; [in_domain | discriminate]).
Qed.

Lemma accumulators_seen (p : HealthParameters) :
  accumulators (seen p) = accumulators p.
Proof.
  unfold accumulators, seen. cbv zeta.
  cbn [bodyTemperature digestion sleepPattern energyLevel skinType stressLevel].
  rewrite !eqb_seen_as by (first [discriminate | in_domain]).
  reflexivity.
Qed.

Lemma table_total_seen (p : HealthParameters) :
  table_total (seen p) = table_total p.
Proof.
  unfold table_total, scored_attributes, seen.
  cbn [bodyTemperature digestion sleepPattern energyLevel skinType stressLevel
       fold_left].
  rewrite !table_entry_seen_as by (first [reflexivity | in_domain]).
  reflexivity.
Qed.

Lemma scored_out_of_domain_seen (p : HealthParameters) :
  scored_out_of_domain (seen p) = scored_out_of_domain p.
Proof.
  unfold scored_out_of_domain, seen.
  cbn [bodyTemperature digestion sleepPattern energyLevel skinType stressLevel].
  rewrite !mem_seen_as by reflexivity. reflexivity.
Qed.

Lemma scored_inputs_complete (p : HealthParameters) :
  In (seen p) all_scored_inputs.
Proof.
  unfold all_scored_inputs, seen.
  apply in_flat_map. eexists. split; [apply seen_as_in|].
  apply in_flat_map. eexists. split; [apply seen_as_in|].
  apply in_flat_map. eexists. split; [apply seen_as_in|].
  apply in_flat_map. eexists. split; [apply seen_as_in|].
  apply in_flat_map. eexists. split; [apply seen_as_in|].
  apply in_map_iff. eexists. split; [reflexivity | apply seen_as_in].
Qed.

(** The check holds of the 4096 inputs, hence of every input. *)
Lemma any_input_check_all :
  forallb any_input_check all_scored_inputs = true.
Proof. vm_compute. reflexivity. Qed.

Lemma any_input_checked (p : HealthParameters) : any_input_check p = true.
Proof.
  pose proof any_input_check_all as Hall. rewrite forallb_forall in Hall.
  specialize (Hall (seen p) (scored_inputs_complete p)).
  unfold any_input_check in *.
  now rewrite accumulators_seen, table_total_seen, scored_out_of_domain_seen
    in Hall.
Qed.

Lemma accumulators_table_total (p : HealthParameters) :
  accumulators p = table_total p.
Proof.
  pose proof (any_input_checked p) as H. unfold any_input_check in H.
  destruct (accumulators p) as [[v pi] k].
  destruct (table_total p) as [[a b] c].
  rewrite !andb_true_iff in H. destruct H as [[[Ha Hb] Hc] _].
  apply Z.eqb_eq in Ha, Hb, Hc. now subst.
Qed.

Lemma in_domain_percentages (p : HealthParameters) :
  scored_out_of_domain p = false ->
  integer_percentages (calculateDoshaProfile p).
Proof.
  intros Hd.
  pose proof (any_input_checked p) as H. unfold any_input_check in H.
  unfold integer_percentages, calculateDoshaProfile.
  destruct (accumulators p) as [[v pi] k].
  destruct (table_total p) as [[a b] c].
  rewrite Hd in H. cbv zeta in H. rewrite !andb_true_iff in H.
  destruct H as [_ [[[[[[Ht Ha0] Ha1] Hb0] Hb1] Hc0] Hc1]].
  apply negb_true_iff, Z.eqb_neq in Ht.
  exists (pct v (v + pi + k)), (pct pi (v + pi + k)), (pct k (v + pi + k)).
  rewrite !percentage_of_Z by assumption.
  split; [reflexivity|]. lia.
Qed.

Lemma out_of_domain_no_entry (attribute value : string) :
  In attribute (map fst weight_table) ->
  mem value (attribute_domain attribute) = false ->
  table_entry attribute value = None /\
  award (table_entry attribute value) = (0, 0, 0).
Proof.
  intros Hin Hm.
  rewrite <- (table_entry_seen_as attribute _ value Hin eq_refl).
  unfold seen_as. rewrite Hm.
  simpl in Hin. destruct Hin as [<-|[<-|[<-|[<-|[<-|[<-|[]]]]]]];
    split; reflexivity.
Qed.

Lemma lifestyle_reads_stress_test (lifestyle : LifestyleFactors)
    (p p' : HealthParameters) :
  streq p.(stressLevel) "high" = streq p'.(stressLevel) "high" ->
  calculateLifestyleRisk lifestyle p = calculateLifestyleRisk lifestyle p'.
Proof.
  intros H. unfold calculateLifestyleRisk, risk_state_of, stressRisk.
  rewrite H. reflexivity.
Qed.

Lemma predictions_read_tests (doshaScores : DoshaScores)
    (lifestyle : LifestyleFactors) (p p' : HealthParameters) :
  same_tests p p' ->
  predictDiseases doshaScores lifestyle p
  = predictDiseases doshaScores lifestyle p'.
Proof.
  intros (Hb & Hs & Hi & Hl & Hw & Hv).
  unfold predictDiseases, predictions_of. cbv zeta.
  rewrite Hb, Hs, Hi, Hl, Hw, Hv. reflexivity.
Qed.

Lemma findings_tested (doshaScores : DoshaScores)
    (lifestyle : LifestyleFactors) (params : HealthParameters) :
  Forall (fun d =>
            forall attribute value,
              tested d.(disease) = Some (attribute, value) ->
              assoc attribute (scored_attributes params) = Some value /\
              mem value (attribute_domain attribute) = true)
         (predictions_of doshaScores lifestyle params).
Proof.
  each_rule.
  all: cbn [disease]; intros attribute value E; vm_compute in E.
  all: first [discriminate E | injection E as <- <-].
  all: split; [|reflexivity].
  all: match goal with
       | |- assoc ?a (scored_attributes ?p) = Some ?l =>
           let v := eval vm_compute in (assoc a (scored_attributes p)) in
           change (v = Some l)
       end.
  all: f_equal.
  all: repeat match goal with
       | H : (_ && _)%bool = true |- _ =>
           apply andb_true_iff in H; destruct H
       end.
  all: match goal with
       | H : streq _ _ = true |- _ => apply String.eqb_eq in H; exact H
       end.
Qed.

Lemma zero_height_bmi (params : HealthParameters) :
  params.(height) = JS.of_Z 0 -> positive params.(weight) = true ->
  bmi_of params = JS.PInf.
Proof.
  intros Hh Hw. unfold bmi_of. rewrite Hh.
  destruct (weight params) as [q| | |]; try discriminate Hw.
  - unfold positive, JS.lt, JS.of_Z in Hw. apply Qlt_bool_iff in Hw.
    change (JS.pow (JS.div (JS.of_Z 0) (JS.of_Z 100)) 2)
      with (JS.Fin ((0 / 100) * (0 / 100))).
    unfold JS.div, JS.sgn.
    change (Qeq_bool ((0 / 100) * (0 / 100)) 0) with true.
    assert (E : (0 ?= q)%Q = Lt) by (apply Qlt_alt; exact Hw).
    now rewrite E.
  - reflexivity.
Qed.

(** C2, amended: none of the three core functions validates its input or
    fails: for every input, valid or not, each returns a result.
    [calculateDoshaProfile] gives a value outside its declared set no
    points: whatever the six scored values are, its accumulators are the
    sums of the points of the weight table, which has no entry for an
    out-of-domain value; it returns NaN for all three percentages when
    none of the six scored attributes is in its set and three integer
    percentages between 0 and 100 when at least one is; it does not read
    age, weight, height or exerciseFrequency.  [calculateLifestyleRisk]
    reads the health parameters only through the test
    [stressLevel === 'high'].  [predictDiseases] reads them only through
    the BMI and five comparisons with a literal, and reports a finding
    whose rule tests an enumerated attribute only when the attribute holds
    the tested value, which is in the declared set: an out-of-domain value
    fires no such rule.  With a height of zero and a positive weight the
    BMI is +Infinity. *)
Theorem invalid_input_is_computed (doshaScores : DoshaScores)
    (lifestyle : LifestyleFactors) (params : HealthParameters) :
  (~ rejects (run_calculateDoshaProfile params) /\
   ~ rejects (run_predictDiseases doshaScores lifestyle params) /\
   ~ rejects (run_calculateLifestyleRisk lifestyle params)) /\
  accumulators params = table_total params /\
  (forall attribute value,
     In attribute (map fst weight_table) ->
     mem value (attribute_domain attribute) = false ->
     table_entry attribute value = None /\
     award (table_entry attribute value) = (0, 0, 0)) /\
  (scored_out_of_domain params = true ->
     calculateDoshaProfile params = NaN_scores) /\
  (scored_out_of_domain params = false ->
     integer_percentages (calculateDoshaProfile params)) /\
  (forall a w h ef,
     calculateDoshaProfile (with_unscored params a w h ef)
       = calculateDoshaProfile params) /\
  (forall params',
     streq params.(stressLevel) "high" = streq params'.(stressLevel) "high" ->
     calculateLifestyleRisk lifestyle params
       = calculateLifestyleRisk lifestyle params') /\
  (forall params',
     same_tests params params' ->
     predictDiseases doshaScores lifestyle params
       = predictDiseases doshaScores lifestyle params') /\
  Forall (fun d =>
            forall attribute value,
              tested d.(disease) = Some (attribute, value) ->
              assoc attribute (scored_attributes params) = Some value /\
              mem value (attribute_domain attribute) = true)
         (predictDiseases doshaScores lifestyle params) /\
  (params.(height) = JS.of_Z 0 -> positive params.(weight) = true ->
     bmi_of params = JS.PInf).
Proof.
  split; [repeat split; discriminate|].
  split; [apply accumulators_table_total|].
  split; [apply out_of_domain_no_entry|].
  split; [apply scored_out_of_domain_NaN|].
  split; [apply in_domain_percentages|].
  split; [intros; reflexivity|].
  split; [apply lifestyle_reads_stress_test|].
  split; [apply predictions_read_tests|].
  split; [apply predictions_all, findings_tested|].
  apply zero_height_bmi.
Qed.

Lemma invalid_input_is_computed_witness :
  invalid_input hot_params = true /\
  scored_out_of_domain hot_params = false /\
  accumulators hot_params = table_total hot_params /\
  integer_percentages (calculateDoshaProfile hot_params) /\
  invalid_input garbage_params = true /\
  scored_out_of_domain garbage_params = true /\
  calculateDoshaProfile garbage_params = NaN_scores /\
  invalid_input zero_height_params = true /\
  bmi_of zero_height_params = JS.PInf.
Proof.
  destruct (invalid_input_is_computed NaN_scores sedentary_lifestyle
              hot_params) as (_ & Ht & _ & _ & Hp & _).
  destruct (invalid_input_is_computed NaN_scores sedentary_lifestyle
              garbage_params) as (_ & _ & _ & Hn & _).
  destruct (invalid_input_is_computed NaN_scores sedentary_lifestyle
              zero_height_params) as (_ & _ & _ & _ & _ & _ & _ & _ & _ & Hb).
  split; [reflexivity|]. split; [reflexivity|]. split; [exact Ht|].
  split; [apply Hp; reflexivity|].
  split; [reflexivity|]. split; [reflexivity|].
  split; [apply Hn; reflexivity|].
  split; [reflexivity|]. apply Hb; reflexivity.
Defined.
